(** * GraphQL resolvers of the link/comment server: a shallow embedding

    The development follows [src/schema.ts] (resolvers and their helpers),
    the two versions of [auth.ts] and [prisma/schema.prisma].  Promises are
    modelled by their outcome (resolved or rejected), the Prisma client by an
    interface of store operations threaded through a state-and-error monad,
    and JavaScript strings by [string]. *)

From Stdlib Require Import ZArith String Ascii List Bool Lia.
From Stdlib Require Import DecimalString DecimalPos DecimalZ.
Import ListNotations.

Local Open Scope string_scope.
Local Open Scope Z_scope.

(** ** JavaScript values used by the resolvers *)

(** Template literals print a number with [String(n)]: for an integer below
    10^21 in absolute value this is the plain decimal numeral.  Larger
    numbers, which JavaScript prints with an exponent, are outside the
    domain of this function; the values printed here are GraphQL [Int]s
    and record ids. *)
Definition string_of_number (n : Z) : string :=
  NilZero.string_of_int (Z.to_int n).

(** A JavaScript number used as a record id.  [NonInt] stands for every
    number that is not an integer ([NaN], the infinities, fractions). *)
Inductive number : Type :=
| Int (z : Z)
| NonInt.

(** [!s] on a string: only the empty string is falsy. *)
Definition falsy (s : string) : bool :=
  match s with
  | EmptyString => true
  | String _ _ => false
  end.

(** [s.split(sep)] for a one-character separator.  The result always has at
    least one element. *)
Fixpoint split (sep : ascii) (s : string) : list string :=
  match s with
  | EmptyString => [EmptyString]
  | String c rest =>
      if Ascii.eqb c sep then EmptyString :: split sep rest
      else match split sep rest with
           | [] => [String c EmptyString]
           | w :: ws => String c w :: ws
           end
  end.

(** [haystack.includes(needle)], the case-sensitive substring test. *)
Fixpoint includes (needle haystack : string) : bool :=
  match haystack with
  | EmptyString => falsy needle
  | String _ rest => prefix needle haystack || includes needle rest
  end.

(** A message that contains the needle, used to describe error messages. *)
Definition mentions (needle msg : string) : Prop :=
  exists pre post, msg = pre ++ needle ++ post.

(** ** Errors and promise outcomes *)

Inductive error : Type :=
| GraphQLError (message : string)
| PrismaClientKnownRequestError (code : string) (message : string)
| Error (name : string) (message : string).

Inductive outcome (A : Type) : Type :=
| Resolved (a : A)
| Rejected (e : error).

Arguments Resolved {A} a.
Arguments Rejected {A} e.

(** ** [parseIntSafe] *)

(** The class [\d] of a regular expression without the unicode flag. *)
Definition isDigit (c : ascii) : bool :=
  let n := N_of_ascii c in (48 <=? n)%N && (n <=? 57)%N.

Definition digitValue (c : ascii) : Z := Z.of_N (N_of_ascii c) - 48.

Fixpoint allDigits (s : string) : bool :=
  match s with
  | EmptyString => true
  | String c rest => isDigit c && allDigits rest
  end.

(** [/^(\d+)$/.test(value)]: one or more digits and nothing else. *)
Definition test_digits (value : string) : bool :=
  negb (falsy value) && allDigits value.

(** The mathematical integer the digits of a numeral denote, accumulated
    from the left. *)
Fixpoint parseInt_acc (acc : Z) (s : string) : Z :=
  match s with
  | EmptyString => acc
  | String c rest => parseInt_acc (10 * acc + digitValue c) rest
  end.

(** The Number value of a non-negative mathematical integer: itself below
    2^53, and from there the nearest number with a 53-bit significand, a
    tie going to the even significand; what rounds to 2^1024 or more is
    [Infinity], which is [NonInt]. *)
Definition round_to_double (v : Z) : number :=
  if v <? 2 ^ 53 then Int v
  else
    let e := Z.log2 v - 52 in
    let q := v / 2 ^ e in
    let r := v mod 2 ^ e in
    let q' := if (2 ^ e <? 2 * r) || ((2 * r =? 2 ^ e) && Z.odd q)
              then q + 1 else q in
    if 2 ^ 1024 <=? q' * 2 ^ e then NonInt else Int (q' * 2 ^ e).

(** [parseInt(value, 10)] on the strings the guard lets through: the Number
    value of the integer the digits denote. *)
Definition parseInt (value : string) : number :=
  round_to_double (parseInt_acc 0 value).

Definition parseIntSafe (value : string) : option number :=
  if test_digits value then Some (parseInt value) else None.

(** The base-10 value of a numeral as positional notation defines it: each
    digit weighs ten to the number of digits after it. *)
Fixpoint base10_value (s : string) : Z :=
  match s with
  | EmptyString => 0
  | String c rest =>
      digitValue c * 10 ^ Z.of_nat (String.length rest) + base10_value rest
  end.

(** ** Pagination constraints *)

Record constraint_params : Type := {
  min : Z;
  max : Z;
  value : Z
}.

Definition out_of_range (params : constraint_params) : bool :=
  (params.(value) <? params.(min)) || (params.(value) >? params.(max)).

Definition range_message (arg : string) (params : constraint_params) : string :=
  "'" ++ arg ++ "' argument value '" ++ string_of_number params.(value)
  ++ "' is outside the valud range of " ++ string_of_number params.(min)
  ++ " to " ++ string_of_number params.(max).

Definition applyTakeConstraints (params : constraint_params) : outcome Z :=
  if out_of_range params
  then Rejected (GraphQLError (range_message "take" params))
  else Resolved params.(value).

Definition applySkipConstraints (params : constraint_params) : outcome Z :=
  if out_of_range params
  then Rejected (GraphQLError (range_message "skip" params))
  else Resolved params.(value).

(** ** Data model ([prisma/schema.prisma]) *)

Module Link.
Record t : Type := {
  id : Z;
  createdAt : Z;
  description : string;
  url : string;
  postedById : option Z
}.
End Link.

Module Comment.
Record t : Type := {
  id : Z;
  body : string;
  linkId : option Z
}.
End Comment.

Module User.
Record t : Type := {
  id : Z;
  name : string;
  email : string;
  password : string
}.
End User.

(** The [where] argument built by [linkFeed]: either the empty object or a
    disjunction of substring filters. *)
Inductive LinkFilter : Type :=
| description_contains (needle : string)
| url_contains (needle : string).

Inductive LinkWhereInput : Type :=
| where_any
| where_OR (clauses : list LinkFilter).

(** ** The Prisma client as the resolvers use it

    [context.prisma.link.findUnique] and the other delegates are external;
    they are taken as an interface over a store of type [db].  Queries read
    the store, the three kinds of write return the store they leave. *)
Record PrismaClient (db : Type) : Type := {
  link_findMany : LinkWhereInput -> Z -> Z -> db -> outcome (list Link.t);
  link_findUnique : number -> db -> outcome (option Link.t);
  link_create : string -> string -> db -> db * outcome Link.t;
  link_delete : number -> db -> db * outcome Link.t;
  comment_findMany : Z -> db -> outcome (list Comment.t);
  comment_findUnique : number -> db -> outcome (option Comment.t);
  comment_create : string -> number -> db -> db * outcome Comment.t;
  comment_delete : number -> db -> db * outcome Comment.t;
  comment_update : number -> string -> db -> db * outcome Comment.t;
  user_findUnique : number -> db -> outcome (option User.t)
}.

Arguments link_findMany {db} _ _ _ _ _.
Arguments link_findUnique {db} _ _ _.
Arguments link_create {db} _ _ _ _.
Arguments link_delete {db} _ _ _.
Arguments comment_findMany {db} _ _ _.
Arguments comment_findUnique {db} _ _ _.
Arguments comment_create {db} _ _ _ _.
Arguments comment_delete {db} _ _ _.
Arguments comment_update {db} _ _ _ _.
Arguments user_findUnique {db} _ _ _.

(** ** Asynchronous computations over the store *)

Definition Async (db A : Type) : Type := db -> db * outcome A.

Definition ret {db A} (a : A) : Async db A := fun s => (s, Resolved a).

(** [return Promise.reject(e)] and [throw e] inside an [async] function. *)
Definition reject {db A} (e : error) : Async db A := fun s => (s, Rejected e).

(** [const x = await m; k x]: a rejection of [m] rejects the whole call. *)
Definition await {db A B} (m : Async db A) (k : A -> Async db B) : Async db B :=
  fun s =>
    match m s with
    | (s', Resolved a) => k a s'
    | (s', Rejected e) => (s', Rejected e)
    end.

(** [m.catch(handler)] *)
Definition catch {db A} (m : Async db A) (handler : error -> Async db A)
  : Async db A :=
  fun s =>
    match m s with
    | (s', Resolved a) => (s', Resolved a)
    | (s', Rejected e) => handler e s'
    end.

(** A query of the store: it answers from the store and leaves it as it is. *)
Definition query {db A} (q : db -> outcome A) : Async db A := fun s => (s, q s).

(** A synchronous call that may throw. *)
Definition call {db A} (r : outcome A) : Async db A := fun s => (s, r).

Notation "x <- m ;; k" := (await m (fun x => k))
  (at level 61, m at next level, right associativity).

(** [a ?? b] *)
Definition nullish {A} (a : option A) (b : A) : A :=
  match a with
  | Some v => v
  | None => b
  end.

Notation "a ?? b" := (nullish a b) (at level 40, left associativity).

(** [err instanceof PrismaClientKnownRequestError && err.code === 'P2003'] *)
Definition is_P2003 (err : error) : bool :=
  match err with
  | PrismaClientKnownRequestError code _ => String.eqb code "P2003"
  | _ => false
  end.

(** ** The schema: [typeDefs] *)

(** [type Query]: the root fields a client may ask for, with their
    arguments.  An optional argument that is omitted or [null] is [None]. *)
Inductive QueryField : Type :=
| Query_linkFeed (filterNeedle : option string) (take skip : option Z)
| Query_link (linkId : string)
| Query_comment (commentId : string)
| Query_linkComments (linkId : string).

(** [type Mutation] *)
Inductive MutationField : Type :=
| Mutation_postLink (description url : string)
| Mutation_postCommentOnLink (linkId body : string)
| Mutation_deleteCommentOnLink (commentId : string)
| Mutation_updateCommentOnLink (commentId body : string)
| Mutation_deleteLink (id : string).

(** What a root field resolves to. *)
Inductive FieldValue : Type :=
| Null
| LinkValue (l : Link.t)
| CommentValue (c : Comment.t)
| LinkList (ls : list Link.t).

Definition nullable {A} (inj : A -> FieldValue) (o : option A) : FieldValue :=
  match o with
  | Some a => inj a
  | None => Null
  end.

(** ** The resolvers *)

Section Resolvers.

Context {db : Type}.

(** [context.prisma] *)
Variable prisma : PrismaClient db.

(** The built-in [Number(s)] on a string.  Its grammar of numeric literals
    (white space, signs, fractions, exponents, other radices) is outside
    this development, so it is left as a parameter. *)
Variable Number : string -> number.

(** *** Query *)

Definition linkFeed (filterNeedle : option string) (skip take : option Z)
  : Async db (list Link.t) :=
  let where_ :=
    match filterNeedle with
    | Some needle =>
        if falsy needle then where_any
        else where_OR [description_contains needle; url_contains needle]
    | None => where_any
    end in
  take <- call (applyTakeConstraints
                  {| min := 1; max := 50; value := take ?? 30 |}) ;;
  skip <- call (applySkipConstraints
                  {| min := 0; max := 50; value := skip ?? 0 |}) ;;
  linkFeed <- query (link_findMany prisma where_ take skip) ;;
  ret linkFeed.

Definition linkComments (linkId : string) : Async db (option Link.t) :=
  linkComments <- query (link_findUnique prisma (Number linkId)) ;;
  ret linkComments.

Definition comment (commentId : string) : Async db (option Comment.t) :=
  comment <- query (comment_findUnique prisma (Number commentId)) ;;
  ret comment.

(** *** Field resolvers of [Link] and [Comment] *)

Definition Link_comments (parent : Link.t) : Async db (list Comment.t) :=
  query (comment_findMany prisma parent.(Link.id)).

(** [Number(null)] is [0]. *)
Definition Comment_link (parent : Comment.t) : Async db (option Link.t) :=
  let linkId := parent.(Comment.linkId) in
  query (link_findUnique prisma (Int (linkId ?? 0))).

(** *** Mutation *)

Definition postLink (description url : string) : Async db Link.t :=
  if falsy description || falsy url
  then reject (GraphQLError "🚫 All fields are required.")
  else
    newLink <- link_create prisma description url ;;
    ret newLink.

Definition deleteLink (id : string) : Async db Link.t :=
  let safeID := parseIntSafe id in
  match safeID with
  | None =>
      reject (GraphQLError
                ("Cannot delete non-existing link with id '" ++ id ++ "'."))
  | Some safeID =>
      linkToDelete <- query (link_findUnique prisma safeID) ;;
      match linkToDelete with
      | None =>
          reject (GraphQLError ("Link with ID: '" ++ id ++ "' does not exist."))
      | Some _ =>
          deletedLink <-
            catch (link_delete prisma safeID)
              (fun err =>
                 if is_P2003 err
                 then reject (GraphQLError
                                ("Cannot delete non-existing link with id '"
                                 ++ id ++ "'."))
                 else reject err) ;;
          ret deletedLink
      end
  end.

Definition postCommentOnLink (linkId body : string) : Async db Comment.t :=
  let safeID := parseIntSafe linkId in
  match safeID with
  | None =>
      reject (GraphQLError
                ("Cannot post comment on non-existing link with id '"
                 ++ linkId ++ "'."))
  | Some safeID =>
      linkToPostCommentOn <- query (link_findUnique prisma safeID) ;;
      match linkToPostCommentOn with
      | None =>
          reject (GraphQLError
                    ("Link with ID: '" ++ linkId ++ "' does not exist."))
      | Some _ =>
          if falsy body
          then reject (GraphQLError "🚫 Body is a required field")
          else
            newComment <-
              catch (comment_create prisma body safeID)
                (fun err =>
                   if is_P2003 err
                   then reject
                          (GraphQLError
                             ("Cannot post comment on non-existing link with id '"
                              ++ linkId ++ "'."))
                   else reject err) ;;
            ret newComment
      end
  end.

Definition deleteCommentOnLink (commentId : string) : Async db Comment.t :=
  let safeID := parseIntSafe commentId in
  match safeID with
  | None =>
      reject (GraphQLError
                ("Cannot delete non-existing comment with id '"
                 ++ commentId ++ "'."))
  | Some safeID =>
      commentToDelete <- query (comment_findUnique prisma safeID) ;;
      match commentToDelete with
      | None =>
          reject (GraphQLError
                    ("Comment with ID: '" ++ commentId ++ "' does not exist."))
      | Some _ =>
          deletedComment <-
            catch (comment_delete prisma safeID)
              (fun err =>
                 if is_P2003 err
                 then reject
                        (GraphQLError
                           ("Cannot delete a non-existing comment with id '"
                            ++ commentId ++ "'."))
                 else reject err) ;;
          ret deletedComment
      end
  end.

Definition updateCommentOnLink (commentId body : string)
  : Async db Comment.t :=
  let safeID := parseIntSafe commentId in
  match safeID with
  | None =>
      reject (GraphQLError
                ("Cannot delete non-existing comment with id '"
                 ++ commentId ++ "'."))
  | Some safeID =>
      commentToDelete <- query (comment_findUnique prisma safeID) ;;
      match commentToDelete with
      | None =>
          reject (GraphQLError
                    ("Comment with ID: '" ++ commentId ++ "' does not exist."))
      | Some _ =>
          updatedComment <-
            catch (comment_update prisma safeID body)
              (fun err =>
                 if is_P2003 err
                 then reject
                        (GraphQLError
                           ("Cannot post comment on non-existing link with id '"
                            ++ commentId ++ "'."))
                 else reject err) ;;
          ret updatedComment
      end
  end.

(** *** The resolver map and the execution of a root field *)

Definition fmap {A B} (f : A -> B) (m : Async db A) : Async db B :=
  a <- m ;; ret (f a).

(** [resolvers.Query]: the entries are [linkFeed], [linkComments] and
    [comment]; the field [link] of the schema has none. *)
Definition resolvers_Query (field : QueryField) : option (Async db FieldValue) :=
  match field with
  | Query_linkFeed filterNeedle take skip =>
      Some (fmap LinkList (linkFeed filterNeedle skip take))
  | Query_linkComments linkId =>
      Some (fmap (nullable LinkValue) (linkComments linkId))
  | Query_comment commentId =>
      Some (fmap (nullable CommentValue) (comment commentId))
  | Query_link _ => None
  end.

(** [resolvers.Mutation] has an entry for every field. *)
Definition resolvers_Mutation (field : MutationField)
  : option (Async db FieldValue) :=
  match field with
  | Mutation_postLink description url =>
      Some (fmap LinkValue (postLink description url))
  | Mutation_postCommentOnLink linkId body =>
      Some (fmap CommentValue (postCommentOnLink linkId body))
  | Mutation_deleteCommentOnLink commentId =>
      Some (fmap CommentValue (deleteCommentOnLink commentId))
  | Mutation_updateCommentOnLink commentId body =>
      Some (fmap CommentValue (updateCommentOnLink commentId body))
  | Mutation_deleteLink id =>
      Some (fmap LinkValue (deleteLink id))
  end.

(** The executor's default resolver reads the property named after the
    field from the root value; the server gives no root value, so the
    property is [undefined] and the field completes to [null]. *)
Definition defaultFieldResolver : Async db FieldValue := ret Null.

Definition executeField {F} (resolvers : F -> option (Async db FieldValue))
  (field : F) : Async db FieldValue :=
  match resolvers field with
  | Some resolve => resolve
  | None => defaultFieldResolver
  end.

Definition executeQuery : QueryField -> Async db FieldValue :=
  executeField resolvers_Query.

Definition executeMutation : MutationField -> Async db FieldValue :=
  executeField resolvers_Mutation.

End Resolvers.

(** ** The auth helper ([auth.ts]) *)

(** A header of the request as JavaScript sees it. *)
Inductive header_value : Type :=
| js_undefined
| js_null
| js_string (s : string).

Record FastifyRequest : Type := {
  headers_authorization : header_value;
  headers_host : header_value
}.

(** The claims of a verified token the helper reads. *)
Record JwtPayload : Type := {
  userId : number
}.

Definition APP_SECRET : string := "testing secret, use env".

(** [header !== null] *)
Definition not_null (header : header_value) : bool :=
  match header with
  | js_null => false
  | _ => true
  end.

(** [header?.split(' ')[1]]: [None] is [undefined]. *)
Definition second_word (header : header_value) : option string :=
  match header with
  | js_string h => nth_error (split " " h) 1
  | _ => None
  end.

(** The version that reads the header and verifies the token. *)
Module Auth.
Section WithVerify.

Context {db : Type}.

(** [verify] of the token library: the payload, or the error it throws. *)
Variable verify : string -> string -> outcome JwtPayload.

Definition authenticateUser (prisma : PrismaClient db)
  (request : FastifyRequest) : Async db (option User.t) :=
  let header := request.(headers_authorization) in
  if not_null header then
    let token := second_word header in
    match token with
    | None => ret None
    | Some token =>
        if falsy token then ret None
        else
          tokenPayload <- call (verify token APP_SECRET) ;;
          let userId := tokenPayload.(userId) in
          query (user_findUnique prisma userId)
    end
  else ret None.

End WithVerify.
End Auth.

(** The version whose body is commented out. *)
Module AuthStub.

Definition authenticateUser {db} (prisma : PrismaClient db)
  (request : FastifyRequest) : Async db (option User.t) :=
  ret None.

End AuthStub.

(** ** An in-memory store for the schema

    Tables are lists and ids are drawn from a counter, as [autoincrement()]
    does.  Deleting a link removes its comments ([onDelete: Cascade]).
    The store itself is not part of the repository, and the model stops
    short of it in three places: the order of a table carries no meaning
    (the resolvers pass no [orderBy]); a needle is compared as a plain
    substring, without the wildcards of the [LIKE] behind [contains]; and
    an id is looked up whatever its size, where the [Int] columns hold 32
    bits. *)
Module MemDb.

Record t : Type := {
  links : list Link.t;
  comments : list Comment.t;
  users : list User.t;
  nextLinkId : Z;
  nextCommentId : Z;
  clock : Z
}.

Definition satisfies (l : Link.t) (f : LinkFilter) : bool :=
  match f with
  | description_contains needle => includes needle l.(Link.description)
  | url_contains needle => includes needle l.(Link.url)
  end.

Definition matches (w : LinkWhereInput) (l : Link.t) : bool :=
  match w with
  | where_any => true
  | where_OR clauses => existsb (satisfies l) clauses
  end.

Definition hasLinkId (n : Z) (l : Link.t) : bool := l.(Link.id) =? n.
Definition hasCommentId (n : Z) (c : Comment.t) : bool := c.(Comment.id) =? n.
Definition hasUserId (n : Z) (u : User.t) : bool := u.(User.id) =? n.

Definition onLink (n : Z) (c : Comment.t) : bool :=
  match c.(Comment.linkId) with
  | Some k => k =? n
  | None => false
  end.

Definition invalid_id {A} : outcome A :=
  Rejected (Error "PrismaClientValidationError" "Argument id: expected Int").

Definition not_found {A} : outcome A :=
  Rejected (PrismaClientKnownRequestError "P2025" "Record not found").

Definition foreign_key {A} : outcome A :=
  Rejected (PrismaClientKnownRequestError "P2003"
              "Foreign key constraint failed").

Definition findLinks (w : LinkWhereInput) (take skip : Z) (s : t)
  : outcome (list Link.t) :=
  Resolved (firstn (Z.to_nat take)
              (skipn (Z.to_nat skip) (filter (matches w) s.(links)))).

Definition findLink (i : number) (s : t) : outcome (option Link.t) :=
  match i with
  | Int n => Resolved (find (hasLinkId n) s.(links))
  | NonInt => invalid_id
  end.

Definition findComment (i : number) (s : t) : outcome (option Comment.t) :=
  match i with
  | Int n => Resolved (find (hasCommentId n) s.(comments))
  | NonInt => invalid_id
  end.

Definition findComments (n : Z) (s : t) : outcome (list Comment.t) :=
  Resolved (filter (onLink n) s.(comments)).

Definition findUser (i : number) (s : t) : outcome (option User.t) :=
  match i with
  | Int n => Resolved (find (hasUserId n) s.(users))
  | NonInt => invalid_id
  end.

Definition createLink (description url : string) (s : t)
  : t * outcome Link.t :=
  let l := {| Link.id := s.(nextLinkId);
              Link.createdAt := s.(clock);
              Link.description := description;
              Link.url := url;
              Link.postedById := None |} in
  ({| links := s.(links) ++ [l];
      comments := s.(comments);
      users := s.(users);
      nextLinkId := s.(nextLinkId) + 1;
      nextCommentId := s.(nextCommentId);
      clock := s.(clock) |},
   Resolved l).

Definition deleteLink (i : number) (s : t) : t * outcome Link.t :=
  match i with
  | Int n =>
      match find (hasLinkId n) s.(links) with
      | Some l =>
          ({| links := filter (fun x => negb (hasLinkId n x)) s.(links);
              comments := filter (fun c => negb (onLink n c)) s.(comments);
              users := s.(users);
              nextLinkId := s.(nextLinkId);
              nextCommentId := s.(nextCommentId);
              clock := s.(clock) |},
           Resolved l)
      | None => (s, not_found)
      end
  | NonInt => (s, invalid_id)
  end.

Definition createComment (body : string) (linkId : number) (s : t)
  : t * outcome Comment.t :=
  match linkId with
  | Int n =>
      match find (hasLinkId n) s.(links) with
      | Some _ =>
          let c := {| Comment.id := s.(nextCommentId);
                      Comment.body := body;
                      Comment.linkId := Some n |} in
          ({| links := s.(links);
              comments := s.(comments) ++ [c];
              users := s.(users);
              nextLinkId := s.(nextLinkId);
              nextCommentId := s.(nextCommentId) + 1;
              clock := s.(clock) |},
           Resolved c)
      | None => (s, foreign_key)
      end
  | NonInt => (s, invalid_id)
  end.

Definition deleteComment (i : number) (s : t) : t * outcome Comment.t :=
  match i with
  | Int n =>
      match find (hasCommentId n) s.(comments) with
      | Some c =>
          ({| links := s.(links);
              comments := filter (fun x => negb (hasCommentId n x)) s.(comments);
              users := s.(users);
              nextLinkId := s.(nextLinkId);
              nextCommentId := s.(nextCommentId);
              clock := s.(clock) |},
           Resolved c)
      | None => (s, not_found)
      end
  | NonInt => (s, invalid_id)
  end.

Definition setBody (n : Z) (body : string) (c : Comment.t) : Comment.t :=
  if hasCommentId n c
  then {| Comment.id := c.(Comment.id);
          Comment.body := body;
          Comment.linkId := c.(Comment.linkId) |}
  else c.

Definition updateComment (i : number) (body : string) (s : t)
  : t * outcome Comment.t :=
  match i with
  | Int n =>
      match find (hasCommentId n) s.(comments) with
      | Some c =>
          ({| links := s.(links);
              comments := map (setBody n body) s.(comments);
              users := s.(users);
              nextLinkId := s.(nextLinkId);
              nextCommentId := s.(nextCommentId);
              clock := s.(clock) |},
           Resolved (setBody n body c))
      | None => (s, not_found)
      end
  | NonInt => (s, invalid_id)
  end.

Definition client : PrismaClient t := {|
  link_findMany := findLinks;
  link_findUnique := findLink;
  link_create := createLink;
  link_delete := deleteLink;
  comment_findMany := findComments;
  comment_findUnique := findComment;
  comment_create := createComment;
  comment_delete := deleteComment;
  comment_update := updateComment;
  user_findUnique := findUser
|}.

Definition empty : t := {|
  links := []; comments := []; users := [];
  nextLinkId := 1; nextCommentId := 1; clock := 0
|}.

End MemDb.

(** A client whose writes are refused by the store with the error [e];
    its queries are those of [c]. *)
Definition refusing_writes {db} (e : error) (c : PrismaClient db)
  : PrismaClient db := {|
  link_findMany := link_findMany c;
  link_findUnique := link_findUnique c;
  link_create := fun _ _ s => (s, Rejected e);
  link_delete := fun _ s => (s, Rejected e);
  comment_findMany := comment_findMany c;
  comment_findUnique := comment_findUnique c;
  comment_create := fun _ _ s => (s, Rejected e);
  comment_delete := fun _ s => (s, Rejected e);
  comment_update := fun _ _ s => (s, Rejected e);
  user_findUnique := user_findUnique c
|}.

(** An instance of [Number] for the examples: on a string of digits it is
    the number [parseInt] reads, as [Number] is, and on a string such as
    "abc", which is no numeric literal, it is [NaN], as [Number] is.  The
    examples apply it to no other string. *)
Definition Number_of_digits (s : string) : number :=
  match parseIntSafe s with
  | Some n => n
  | None => NonInt
  end.

(** A store with two links and a comment on each, for the examples. *)
Definition sample_store : MemDb.t := {|
  MemDb.links :=
    [ {| Link.id := 1; Link.createdAt := 10; Link.description := "first";
         Link.url := "http://a"; Link.postedById := None |};
      {| Link.id := 7; Link.createdAt := 20; Link.description := "seventh";
         Link.url := "http://g"; Link.postedById := None |} ];
  MemDb.comments :=
    [ {| Comment.id := 1; Comment.body := "nice"; Comment.linkId := Some 7 |};
      {| Comment.id := 2; Comment.body := "meh"; Comment.linkId := Some 1 |} ];
  MemDb.users := [];
  MemDb.nextLinkId := 8;
  MemDb.nextCommentId := 3;
  MemDb.clock := 100
|}.

(** The store's answer when it refuses a write over a foreign key. *)
Definition P2003 : error :=
  PrismaClientKnownRequestError "P2003" "Foreign key constraint failed".

(** A request carrying the given [Authorization] header. *)
Definition request_with (authorization : header_value) : FastifyRequest := {|
  headers_authorization := authorization;
  headers_host := js_string "localhost:4000"
|}.

(** A verifier under which no token passes, as when every token was signed
    with another secret. *)
Definition verify_nothing (token secret : string) : outcome JwtPayload :=
  Rejected (Error "JsonWebTokenError" "invalid signature").

(** A verifier under which every token carries the user id 1. *)
Definition verify_user_1 (token secret : string) : outcome JwtPayload :=
  Resolved {| userId := Int 1 |}.

(** ** The context builder ([context.ts]) *)

Module GraphQLContext.
Record t (db : Type) : Type := {
  prisma : PrismaClient db;
  currentUser : option User.t
}.
Arguments prisma {db} _.
Arguments currentUser {db} _.
End GraphQLContext.

(** What the server hands to the builder; only the request is read. *)
Module ContextProps.
Record t : Type := {
  request : FastifyRequest
}.
End ContextProps.

(** The builder of the Fastify server: it awaits the helper imported from
    [./auth], which is taken as a parameter since that file has two
    versions. *)
Module FastifyContext.
Section WithAuth.

Context {db : Type}.
Variable authenticateUser :
  PrismaClient db -> FastifyRequest -> Async db (option User.t).

(** The module-level [const prisma = new PrismaClient()]. *)
Variable prisma : PrismaClient db.

Definition createContext (initialContext : ContextProps.t)
  : Async db (GraphQLContext.t db) :=
  currentUser <-
    authenticateUser prisma initialContext.(ContextProps.request) ;;
  ret {| GraphQLContext.prisma := prisma;
         GraphQLContext.currentUser := currentUser |}.

End WithAuth.
End FastifyContext.

(** The builder of the earlier server, with the call of the helper
    commented out. *)
Module YogaContext.

Definition createContext {db} (prisma : PrismaClient db)
  (initialContext : ContextProps.t) : Async db (GraphQLContext.t db) :=
  ret {| GraphQLContext.prisma := prisma;
         GraphQLContext.currentUser := None |}.

End YogaContext.

(** ** More clients and stores for the examples *)

(** A client that cannot reach its store: every call is rejected with [e]. *)
Definition offline (e : error) : PrismaClient unit := {|
  link_findMany := fun _ _ _ _ => Rejected e;
  link_findUnique := fun _ _ => Rejected e;
  link_create := fun _ _ s => (s, Rejected e);
  link_delete := fun _ s => (s, Rejected e);
  comment_findMany := fun _ _ => Rejected e;
  comment_findUnique := fun _ _ => Rejected e;
  comment_create := fun _ _ s => (s, Rejected e);
  comment_delete := fun _ s => (s, Rejected e);
  comment_update := fun _ _ s => (s, Rejected e);
  user_findUnique := fun _ _ => Rejected e
|}.

(** The client [c] with [link.findMany] replaced by [f]. *)
Definition with_findMany {db}
  (f : LinkWhereInput -> Z -> Z -> db -> outcome (list Link.t))
  (c : PrismaClient db) : PrismaClient db := {|
  link_findMany := f;
  link_findUnique := link_findUnique c;
  link_create := link_create c;
  link_delete := link_delete c;
  comment_findMany := comment_findMany c;
  comment_findUnique := comment_findUnique c;
  comment_create := comment_create c;
  comment_delete := comment_delete c;
  comment_update := comment_update c;
  user_findUnique := user_findUnique c
|}.

(** A [findMany] that refuses a page outside the bounds of [linkFeed]. *)
Definition findLinks_in_bounds (w : LinkWhereInput) (take skip : Z)
  (s : MemDb.t) : outcome (list Link.t) :=
  if (1 <=? take) && (take <=? 50) && (0 <=? skip) && (skip <=? 50)
  then MemDb.findLinks w take skip s
  else Rejected (Error "Error" "page out of bounds").

(** The constraints of the schema on a store: ids are unique and below the
    counters, and a comment's [linkId], when present, is the id of a link
    of the store. *)
Definition store_ok (s : MemDb.t) : Prop :=
  NoDup (map Link.id s.(MemDb.links)) /\
  (forall l, In l s.(MemDb.links) -> l.(Link.id) < s.(MemDb.nextLinkId)) /\
  NoDup (map Comment.id s.(MemDb.comments)) /\
  (forall c, In c s.(MemDb.comments) ->
             c.(Comment.id) < s.(MemDb.nextCommentId)) /\
  (forall c k, In c s.(MemDb.comments) -> c.(Comment.linkId) = Some k ->
               exists l, In l s.(MemDb.links) /\ l.(Link.id) = k).

(** What the handler passed to [catch] makes of an error of the store. *)
Definition remapped (message : string) (e : error) : error :=
  if is_P2003 e then GraphQLError message else e.

(** The string of [k] zeros. *)
Fixpoint zeros (k : nat) : string :=
  match k with
  | O => ""
  | S k => String "0" (zeros k)
  end.

(** A string without the space [split(' ')] cuts at. *)
Definition no_space (s : string) : Prop :=
  Forall (fun c => c <> " "%char) (list_ascii_of_string s).

(** The ten characters [\d] stands for. *)
Definition decimal_digit (c : ascii) : Prop :=
  In c ["0"; "1"; "2"; "3"; "4"; "5"; "6"; "7"; "8"; "9"]%char.

(** A string made of one or more decimal digits and nothing else. *)
Definition digit_string (s : string) : Prop :=
  s <> "" /\ Forall decimal_digit (list_ascii_of_string s).

(** * Properties *)

(** ** Strings and numerals *)

Lemma isDigit_decimal_digit (c : ascii) :
  isDigit c = true <-> decimal_digit c.
Proof.
  unfold decimal_digit. split.
  - intros H.
    destruct c as [[] [] [] [] [] [] [] []]; try discriminate H;
      simpl; auto 12.
  - simpl. intros H.
    repeat (destruct H as [H | H]; [subst c; reflexivity | ]).
    contradiction.
Qed.

Lemma allDigits_Forall (s : string) :
  allDigits s = true <-> Forall decimal_digit (list_ascii_of_string s).
Proof.
  induction s as [| c s IH]; simpl.
  - split; [constructor | reflexivity].
  - rewrite andb_true_iff, IH, isDigit_decimal_digit. split.
    + intros [Hc Hs]. constructor; assumption.
    + intros H. inversion H; subst. split; assumption.
Qed.

Lemma falsy_empty (s : string) : falsy s = true <-> s = "".
Proof. destruct s; simpl; split; congruence. Qed.

Lemma test_digits_spec (s : string) :
  test_digits s = true <-> digit_string s.
Proof.
  unfold test_digits, digit_string.
  rewrite andb_true_iff, negb_true_iff, <- allDigits_Forall.
  split; intros [H1 H2]; split; try assumption.
  - intros ->. discriminate H1.
  - destruct s; [congruence | reflexivity].
Qed.

Lemma parseInt_acc_base10 (s : string) :
  forall acc,
    parseInt_acc acc s = acc * 10 ^ Z.of_nat (String.length s) + base10_value s.
Proof.
  induction s as [| c s IH]; intros acc; simpl String.length.
  - simpl. lia.
  - cbn [parseInt_acc base10_value]. rewrite IH.
    rewrite Nat2Z.inj_succ, Z.pow_succ_r by lia. ring.
Qed.

(** Rounding to a double. *)

Lemma round_to_double_exact (v : Z) :
  v < 2 ^ 53 -> round_to_double v = Int v.
Proof.
  intros H. unfold round_to_double. apply Z.ltb_lt in H. rewrite H. reflexivity.
Qed.

(** The pieces of a number from 2^53 on: the unit in the last place, the
    significand and the remainder. *)
Lemma double_pieces (v : Z) :
  2 ^ 53 <= v ->
  let u := 2 ^ (Z.log2 v - 52) in
  2 <= u /\ v = v / u * u + v mod u /\ 0 <= v mod u < u /\
  2 ^ 52 <= v / u /\ 2 ^ 52 * u <= v.
Proof.
  intros Hv u.
  assert (Hpos : 0 < v) by (pose proof (Z.pow_pos_nonneg 2 53); lia).
  assert (Hlog : 53 <= Z.log2 v).
  { rewrite <- (Z.log2_pow2 53) by lia. apply Z.log2_le_mono. exact Hv. }
  assert (Hu : 2 <= u).
  { unfold u. change 2 with (2 ^ 1) at 1. apply Z.pow_le_mono_r; lia. }
  assert (Hspec : 2 ^ 52 * u <= v).
  { unfold u. rewrite <- Z.pow_add_r by lia.
    replace (52 + (Z.log2 v - 52)) with (Z.log2 v) by lia.
    apply Z.log2_spec. exact Hpos. }
  pose proof (Z.div_mod v u ltac:(lia)) as Hdm.
  pose proof (Z.mod_pos_bound v u ltac:(lia)) as Hr.
  split; [exact Hu |]. split; [lia |]. split; [exact Hr |].
  split; [| exact Hspec].
  apply Z.div_le_lower_bound; lia.
Qed.

Lemma round_to_double_Int (v z : Z) :
  0 <= v -> round_to_double v = Int z ->
  (v < 2 ^ 53 /\ z = v) \/
  (2 ^ 53 <= v /\ 2 ^ 53 <= z /\ 2 ^ 53 * Z.abs (z - v) <= v).
Proof.
  intros Hv0 H. unfold round_to_double in H.
  destruct (v <? 2 ^ 53) eqn:E.
  - left. apply Z.ltb_lt in E. injection H as <-. split; [exact E | reflexivity].
  - right. apply Z.ltb_ge in E. split; [exact E |].
    destruct (double_pieces v E) as (Hu & Hdm & Hr & Hq & Hspec).
    cbv zeta in H.
    set (u := 2 ^ (Z.log2 v - 52)) in *.
    set (q := v / u) in *. set (r := v mod u) in *.
    assert (Hqu : 2 ^ 52 * 2 <= q * u)
      by (apply Z.mul_le_mono_nonneg; lia).
    change (2 ^ 53) with 9007199254740992 in *.
    change (2 ^ 52) with 4503599627370496 in *.
    clearbody q r u. revert H.
    destruct ((u <? 2 * r) || ((2 * r =? u) && Z.odd q)) eqn:Eup;
      (destruct (2 ^ 1024 <=? _); [discriminate |]); intros [= <-].
    + assert (Hhalf : u <= 2 * r).
      { apply orb_true_iff in Eup. destruct Eup as [Eup | Eup].
        - apply Z.ltb_lt in Eup. lia.
        - apply andb_true_iff in Eup. destruct Eup as [Eup _].
          apply Z.eqb_eq in Eup. lia. }
      split; [lia |].
      replace ((q + 1) * u - v) with (u - r) by lia.
      rewrite Z.abs_eq by lia. lia.
    + assert (Hhalf : 2 * r <= u).
      { apply orb_false_iff in Eup. destruct Eup as [Eup _].
        apply Z.ltb_ge in Eup. exact Eup. }
      split; [lia |].
      replace (q * u - v) with (- r) by lia.
      rewrite Z.abs_neq by lia. lia.
Qed.



Lemma base10_value_nonneg (s : string) :
  allDigits s = true -> 0 <= base10_value s.
Proof.
  induction s as [| c s IH]; intros H; [reflexivity |].
  cbn [allDigits] in H. apply andb_true_iff in H. destruct H as [Hc Hs].
  specialize (IH Hs). cbn [base10_value].
  unfold isDigit in Hc. apply andb_true_iff in Hc. destruct Hc as [Hlo _].
  apply N.leb_le in Hlo.
  assert (0 <= 10 ^ Z.of_nat (String.length s)) by (apply Z.pow_nonneg; lia).
  unfold digitValue. nia.
Qed.

Lemma parseInt_base10 (s : string) :
  parseInt s = round_to_double (base10_value s).
Proof.
  unfold parseInt. rewrite parseInt_acc_base10. reflexivity.
Qed.

Lemma parseIntSafe_Some (s : string) (n : number) :
  parseIntSafe s = Some n <->
  digit_string s /\ n = round_to_double (base10_value s).
Proof.
  unfold parseIntSafe. rewrite <- test_digits_spec, <- parseInt_base10.
  destruct (test_digits s); split.
  - intros [= <-]. split; reflexivity.
  - intros [_ ->]. reflexivity.
  - discriminate.
  - intros [H _]. discriminate H.
Qed.

Lemma parseIntSafe_None (s : string) :
  parseIntSafe s = None <-> ~ digit_string s.
Proof.
  unfold parseIntSafe. rewrite <- test_digits_spec.
  destruct (test_digits s); split; congruence.
Qed.

Lemma mentions_intro (pre needle post : string) :
  mentions needle (pre ++ needle ++ post).
Proof. exists pre, post. reflexivity. Qed.

(** ** The monad *)

Lemma await_ret {db A} (m : Async db A) (s : db) :
  (x <- m ;; ret x) s = m s.
Proof. unfold await, ret. destruct (m s) as [s' [a | e]]; reflexivity. Qed.

Lemma fmap_rejected {db A B} (f : A -> B) (m : Async db A) (s s' : db) e :
  m s = (s', Rejected e) -> fmap f m s = (s', Rejected e).
Proof. intros H. unfold fmap, await. rewrite H. reflexivity. Qed.

Lemma fmap_resolved {db A B} (f : A -> B) (m : Async db A) (s s' : db) a :
  m s = (s', Resolved a) -> fmap f m s = (s', Resolved (f a)).
Proof. intros H. unfold fmap, await, ret. rewrite H. reflexivity. Qed.

Lemma is_P2003_true (e : error) :
  is_P2003 e = true <->
  exists message, e = PrismaClientKnownRequestError "P2003" message.
Proof.
  destruct e as [m | code m | nm m]; simpl.
  - split; [discriminate | intros [x H]; discriminate H].
  - rewrite String.eqb_eq. split.
    + intros ->. exists m. reflexivity.
    + intros [x H]. congruence.
  - split; [discriminate | intros [x H]; discriminate H].
Qed.

Lemma is_P2003_false (e : error) :
  is_P2003 e = false <->
  forall message, e <> PrismaClientKnownRequestError "P2003" message.
Proof.
  rewrite <- not_true_iff_false, is_P2003_true. split.
  - intros H message Heq. apply H. exists message. exact Heq.
  - intros H [message Heq]. exact (H message Heq).
Qed.

(** ** Ids that do not parse *)

Section Unparsed.

Context {db : Type} (prisma : PrismaClient db).
Variables (id : string) (st : db).
Hypothesis unparsed : parseIntSafe id = None.

Lemma deleteLink_unparsed :
  deleteLink prisma id st =
  (st, Rejected (GraphQLError
                   ("Cannot delete non-existing link with id '" ++ id ++ "'."))).
Proof. unfold deleteLink. rewrite unparsed. reflexivity. Qed.

Lemma postCommentOnLink_unparsed (body : string) :
  postCommentOnLink prisma id body st =
  (st, Rejected (GraphQLError
                   ("Cannot post comment on non-existing link with id '"
                    ++ id ++ "'."))).
Proof. unfold postCommentOnLink. rewrite unparsed. reflexivity. Qed.

Lemma deleteCommentOnLink_unparsed :
  deleteCommentOnLink prisma id st =
  (st, Rejected (GraphQLError
                   ("Cannot delete non-existing comment with id '"
                    ++ id ++ "'."))).
Proof. unfold deleteCommentOnLink. rewrite unparsed. reflexivity. Qed.

Lemma updateCommentOnLink_unparsed (body : string) :
  updateCommentOnLink prisma id body st =
  (st, Rejected (GraphQLError
                   ("Cannot delete non-existing comment with id '"
                    ++ id ++ "'."))).
Proof. unfold updateCommentOnLink. rewrite unparsed. reflexivity. Qed.

End Unparsed.

(** C3: a mutation given an id that is not a string of digits is rejected
    with a GraphQL error saying the link or comment is non-existing, and the
    store is left as it was. *)
Theorem mutations_reject_non_numeric_id
  {db : Type} (prisma : PrismaClient db) (id body : string) (st : db) :
  ~ digit_string id ->
  exists m1 m2 m3 m4,
    deleteLink prisma id st = (st, Rejected (GraphQLError m1)) /\
    postCommentOnLink prisma id body st = (st, Rejected (GraphQLError m2)) /\
    deleteCommentOnLink prisma id st = (st, Rejected (GraphQLError m3)) /\
    updateCommentOnLink prisma id body st = (st, Rejected (GraphQLError m4)) /\
    m1 = "Cannot delete non-existing link with id '" ++ id ++ "'." /\
    m2 = "Cannot post comment on non-existing link with id '" ++ id ++ "'." /\
    m3 = "Cannot delete non-existing comment with id '" ++ id ++ "'." /\
    m4 = "Cannot delete non-existing comment with id '" ++ id ++ "'." /\
    Forall (mentions "non-existing") [m1; m2; m3; m4].
Proof.
  intros Hid. apply parseIntSafe_None in Hid.
  do 4 eexists.
  split; [apply deleteLink_unparsed; exact Hid |].
  split; [apply postCommentOnLink_unparsed; exact Hid |].
  split; [apply deleteCommentOnLink_unparsed; exact Hid |].
  split; [apply updateCommentOnLink_unparsed; exact Hid |].
  repeat (split; [reflexivity |]).
  repeat constructor.
  - exact (mentions_intro "Cannot delete " _ (" link with id '" ++ id ++ "'.")).
  - exact (mentions_intro "Cannot post comment on " _
             (" link with id '" ++ id ++ "'.")).
  - exact (mentions_intro "Cannot delete " _ (" comment with id '" ++ id ++ "'.")).
  - exact (mentions_intro "Cannot delete " _ (" comment with id '" ++ id ++ "'.")).
Qed.

Lemma mutations_reject_non_numeric_id_witness :
  exists m1 m2 m3 m4,
    deleteLink MemDb.client "abc" MemDb.empty
    = (MemDb.empty, Rejected (GraphQLError m1)) /\
    postCommentOnLink MemDb.client "abc" "hello" MemDb.empty
    = (MemDb.empty, Rejected (GraphQLError m2)) /\
    deleteCommentOnLink MemDb.client "abc" MemDb.empty
    = (MemDb.empty, Rejected (GraphQLError m3)) /\
    updateCommentOnLink MemDb.client "abc" "hello" MemDb.empty
    = (MemDb.empty, Rejected (GraphQLError m4)) /\
    m1 = "Cannot delete non-existing link with id 'abc'." /\
    m2 = "Cannot post comment on non-existing link with id 'abc'." /\
    m3 = "Cannot delete non-existing comment with id 'abc'." /\
    m4 = "Cannot delete non-existing comment with id 'abc'." /\
    Forall (mentions "non-existing") [m1; m2; m3; m4].
Proof.
  apply (mutations_reject_non_numeric_id MemDb.client "abc" "hello" MemDb.empty).
  apply parseIntSafe_None. reflexivity.
Defined.

(** ** [parseIntSafe] and the ids it lets through *)


(** Printing and parsing: the decimal numeral a template literal prints
    for a non-negative integer below 2^53 parses back to that integer. *)

Lemma parseInt_acc_of_uint_acc (d : Decimal.uint) :
  forall p : positive,
    parseInt_acc (Z.pos p) (NilEmpty.string_of_uint d) =
    Z.pos (Pos.of_uint_acc d p).
Proof.
  induction d as [| d IH | d IH | d IH | d IH | d IH | d IH | d IH | d IH
                 | d IH | d IH];
    intros p;
    cbn [NilEmpty.string_of_uint parseInt_acc Pos.of_uint_acc];
    try reflexivity;
    match goal with
    | |- parseInt_acc ?a _ = Z.pos (Pos.of_uint_acc _ ?r) =>
        replace a with (Z.pos r) by (unfold digitValue; simpl N_of_ascii; lia)
    end;
    apply IH.
Qed.

Lemma parseInt_acc_of_uint (d : Decimal.uint) :
  parseInt_acc 0 (NilEmpty.string_of_uint d) = Z.of_N (Pos.of_uint d).
Proof.
  induction d as [| d IH | d IH | d IH | d IH | d IH | d IH | d IH | d IH
                 | d IH | d IH];
    cbn [NilEmpty.string_of_uint parseInt_acc Pos.of_uint];
    try reflexivity; try exact IH.
  all: match goal with
       | |- parseInt_acc ?a _ = _ =>
           let v := eval vm_compute in a in change a with v
       end;
    apply parseInt_acc_of_uint_acc.
Qed.

Lemma allDigits_string_of_uint (d : Decimal.uint) :
  allDigits (NilEmpty.string_of_uint d) = true.
Proof. induction d; simpl; auto. Qed.

Lemma parseIntSafe_string_of_number (n : Z) :
  0 <= n < 2 ^ 53 -> parseIntSafe (string_of_number n) = Some (Int n).
Proof.
  intros [Hn Hsafe]. destruct n as [| p | p]; [reflexivity | | lia].
  unfold string_of_number, parseIntSafe, test_digits, parseInt.
  cbn [Z.to_int NilZero.string_of_int].
  pose proof (Unsigned.to_uint_nonnil p) as Hnil.
  assert (E : NilZero.string_of_uint (Pos.to_uint p) =
              NilEmpty.string_of_uint (Pos.to_uint p)).
  { unfold NilZero.string_of_uint.
    destruct (Pos.to_uint p); [congruence | reflexivity ..]. }
  rewrite E, allDigits_string_of_uint, parseInt_acc_of_uint, Unsigned.of_to.
  cbn [Z.of_N]. rewrite (round_to_double_exact _ Hsafe).
  destruct (Pos.to_uint p); [congruence | reflexivity ..].
Qed.




(** ** Pagination of [linkFeed] *)

Lemma out_of_range_true (params : constraint_params) :
  out_of_range params = true <->
  params.(value) < params.(min) \/ params.(max) < params.(value).
Proof.
  unfold out_of_range.
  rewrite orb_true_iff, Z.ltb_lt, Z.gtb_ltb, Z.ltb_lt. reflexivity.
Qed.

Lemma out_of_range_false (params : constraint_params) :
  out_of_range params = false <->
  params.(min) <= params.(value) <= params.(max).
Proof.
  unfold out_of_range.
  rewrite orb_false_iff, Z.ltb_ge, Z.gtb_ltb, Z.ltb_ge. lia.
Qed.

(** C1: [linkFeed] rejects a [take] (30 when omitted) outside 1..50 and a
    [skip] (0 when omitted) outside 0..50 with a GraphQL error that names
    the argument, its value and the bounds, without asking the store;
    in-range values reach [findMany] as they are, and its answer is the
    result. *)
Theorem linkFeed_pagination_bounds
  {db : Type} (prisma : PrismaClient db)
  (filterNeedle : option string) (take skip : option Z) (st : db) :
  let t := take ?? 30 in
  let s := skip ?? 0 in
  (t < 1 \/ 50 < t ->
   linkFeed prisma filterNeedle skip take st =
   (st, Rejected (GraphQLError
                    ("'take' argument value '" ++ string_of_number t
                     ++ "' is outside the valud range of 1 to 50")))) /\
  (1 <= t <= 50 -> s < 0 \/ 50 < s ->
   linkFeed prisma filterNeedle skip take st =
   (st, Rejected (GraphQLError
                    ("'skip' argument value '" ++ string_of_number s
                     ++ "' is outside the valud range of 0 to 50")))) /\
  (1 <= t <= 50 -> 0 <= s <= 50 ->
   exists where_,
     linkFeed prisma filterNeedle skip take st =
     (st, link_findMany prisma where_ t s st)).
Proof.
  intros t s. unfold linkFeed. fold t. fold s.
  set (pt := {| min := 1; max := 50; value := t |}).
  set (ps := {| min := 0; max := 50; value := s |}).
  split; [| split].
  - intros Ht.
    assert (E : out_of_range pt = true) by (apply out_of_range_true; exact Ht).
    unfold await, call, applyTakeConstraints. rewrite E. reflexivity.
  - intros Ht Hs.
    assert (Et : out_of_range pt = false) by (apply out_of_range_false; exact Ht).
    assert (Es : out_of_range ps = true) by (apply out_of_range_true; exact Hs).
    unfold await, call, applyTakeConstraints, applySkipConstraints.
    rewrite Et, Es. reflexivity.
  - intros Ht Hs.
    assert (Et : out_of_range pt = false) by (apply out_of_range_false; exact Ht).
    assert (Es : out_of_range ps = false) by (apply out_of_range_false; exact Hs).
    match goal with |- context [link_findMany prisma ?w] => exists w end.
    unfold await, call, query, ret, applyTakeConstraints, applySkipConstraints.
    rewrite Et, Es. cbn [value pt ps].
    destruct (link_findMany prisma _ t s st); reflexivity.
Qed.

Lemma linkFeed_pagination_bounds_witness :
  linkFeed MemDb.client None None (Some 999) sample_store =
  (sample_store,
   Rejected (GraphQLError
               "'take' argument value '999' is outside the valud range of 1 to 50"))
  /\ linkFeed MemDb.client None (Some (-1)) None sample_store =
     (sample_store,
      Rejected (GraphQLError
                  "'skip' argument value '-1' is outside the valud range of 0 to 50"))
  /\ exists where_,
       linkFeed MemDb.client (Some "http") (Some 1) (Some 1) sample_store =
       (sample_store, link_findMany MemDb.client where_ 1 1 sample_store).
Proof.
  split; [| split].
  - apply (linkFeed_pagination_bounds MemDb.client None (Some 999) None).
    right. reflexivity.
  - apply (linkFeed_pagination_bounds MemDb.client None None (Some (-1))).
    + split; discriminate.
    + left. reflexivity.
  - apply (linkFeed_pagination_bounds MemDb.client (Some "http")
             (Some 1) (Some 1)).
    + split; discriminate.
    + split; discriminate.
Defined.

(** ** [postLink] *)

(** C4: [postLink] with an empty description or url is rejected with the
    "all fields are required" error and the store is left as it was; with
    both non-empty it is the store's [create] of exactly these two fields,
    which on the in-memory store appends and returns a link with a fresh id
    carrying them. *)
Theorem postLink_requires_both_fields (description url : string) :
  (forall db (prisma : PrismaClient db) (st : db),
      description = "" \/ url = "" ->
      postLink prisma description url st =
      (st, Rejected (GraphQLError "🚫 All fields are required."))) /\
  (forall db (prisma : PrismaClient db) (st : db),
      description <> "" -> url <> "" ->
      postLink prisma description url st =
      link_create prisma description url st) /\
  (forall st : MemDb.t,
      description <> "" -> url <> "" ->
      exists l,
        postLink MemDb.client description url st =
        ({| MemDb.links := st.(MemDb.links) ++ [l];
            MemDb.comments := st.(MemDb.comments);
            MemDb.users := st.(MemDb.users);
            MemDb.nextLinkId := st.(MemDb.nextLinkId) + 1;
            MemDb.nextCommentId := st.(MemDb.nextCommentId);
            MemDb.clock := st.(MemDb.clock) |},
         Resolved l)
        /\ l.(Link.description) = description
        /\ l.(Link.url) = url
        /\ l.(Link.id) = st.(MemDb.nextLinkId)).
Proof.
  assert (Hcreate : forall db (prisma : PrismaClient db) (st : db),
             description <> "" -> url <> "" ->
             postLink prisma description url st =
             link_create prisma description url st).
  { intros db prisma st Hd Hu. unfold postLink.
    destruct description; [congruence |].
    destruct url; [congruence |].
    cbn [falsy orb]. apply await_ret. }
  split; [| split].
  - intros db prisma st H. unfold postLink.
    assert (E : falsy description || falsy url = true).
    { apply orb_true_iff. rewrite !falsy_empty. exact H. }
    rewrite E. reflexivity.
  - exact Hcreate.
  - intros st Hd Hu. rewrite (Hcreate _ MemDb.client st Hd Hu).
    eexists. split; [reflexivity |]. repeat split.
Qed.

Lemma postLink_requires_both_fields_witness :
  postLink MemDb.client "" "http://x" sample_store =
  (sample_store, Rejected (GraphQLError "🚫 All fields are required."))
  /\ postLink MemDb.client "test" "" sample_store =
     (sample_store, Rejected (GraphQLError "🚫 All fields are required."))
  /\ postLink MemDb.client "test" "http://x" MemDb.empty =
     link_create MemDb.client "test" "http://x" MemDb.empty.
Proof.
  split; [| split].
  - apply (postLink_requires_both_fields "" "http://x"). left. reflexivity.
  - apply (postLink_requires_both_fields "test" ""). right. reflexivity.
  - apply (postLink_requires_both_fields "test" "http://x"); discriminate.
Defined.

(** The example of the specification: posting "test" / "http://x" on the
    empty store returns link 1, which then has no comments. *)
Example postLink_test_example :
  postLink MemDb.client "test" "http://x" MemDb.empty =
  ({| MemDb.links :=
        [ {| Link.id := 1; Link.createdAt := 0; Link.description := "test";
             Link.url := "http://x"; Link.postedById := None |} ];
      MemDb.comments := []; MemDb.users := [];
      MemDb.nextLinkId := 2; MemDb.nextCommentId := 1; MemDb.clock := 0 |},
   Resolved {| Link.id := 1; Link.createdAt := 0; Link.description := "test";
               Link.url := "http://x"; Link.postedById := None |})
  /\ forall st l,
       postLink MemDb.client "test" "http://x" MemDb.empty = (st, Resolved l) ->
       Link_comments MemDb.client l st = (st, Resolved []).
Proof.
  split; [reflexivity |].
  intros st l [= <- <-]. reflexivity.
Qed.

(** ** [postCommentOnLink] *)

(** C5: [postCommentOnLink] with a link id that parses but that the store
    does not find is rejected with "Link with ID: ... does not exist." and
    the store is left as it was, so no comment is created. *)
Theorem postCommentOnLink_missing_link
  {db : Type} (prisma : PrismaClient db) (linkId body : string) (n : number)
  (st : db) :
  parseIntSafe linkId = Some n ->
  link_findUnique prisma n st = Resolved None ->
  postCommentOnLink prisma linkId body st =
  (st, Rejected (GraphQLError ("Link with ID: '" ++ linkId ++ "' does not exist."))).
Proof.
  intros Hparse Hfind. unfold postCommentOnLink. rewrite Hparse.
  cbv zeta. unfold await at 1. unfold query. rewrite Hfind. reflexivity.
Qed.

Lemma postCommentOnLink_missing_link_witness :
  postCommentOnLink MemDb.client "42" "hello" sample_store =
  (sample_store, Rejected (GraphQLError "Link with ID: '42' does not exist.")).
Proof.
  apply (postCommentOnLink_missing_link MemDb.client "42" "hello" (Int 42));
    reflexivity.
Defined.

(** ** [deleteLink] *)

(** C6: when the id parses and the store finds the link, [deleteLink]
    turns a P2003 answer of the store's [delete] into the GraphQL error
    "Cannot delete non-existing link ...", passes every other error of the
    store on as it is, and returns the deleted link when the store
    succeeds. *)
Theorem deleteLink_store_outcomes
  {db : Type} (prisma : PrismaClient db) (id : string) (n : number)
  (l : Link.t) (st st' : db) :
  parseIntSafe id = Some n ->
  link_findUnique prisma n st = Resolved (Some l) ->
  (forall message,
      link_delete prisma n st =
      (st', Rejected (PrismaClientKnownRequestError "P2003" message)) ->
      deleteLink prisma id st =
      (st', Rejected (GraphQLError
                        ("Cannot delete non-existing link with id '" ++ id ++ "'."))))
  /\ (forall e,
         (forall message, e <> PrismaClientKnownRequestError "P2003" message) ->
         link_delete prisma n st = (st', Rejected e) ->
         deleteLink prisma id st = (st', Rejected e))
  /\ (forall deleted,
         link_delete prisma n st = (st', Resolved deleted) ->
         deleteLink prisma id st = (st', Resolved deleted)).
Proof.
  intros Hparse Hfind.
  assert (Hrun : deleteLink prisma id st =
                 match link_delete prisma n st with
                 | (s1, Resolved d) => (s1, Resolved d)
                 | (s1, Rejected e) =>
                     if is_P2003 e
                     then (s1, Rejected
                                 (GraphQLError
                                    ("Cannot delete non-existing link with id '"
                                     ++ id ++ "'.")))
                     else (s1, Rejected e)
                 end).
  { unfold deleteLink. rewrite Hparse. cbv zeta.
    unfold await at 1. unfold query. rewrite Hfind.
    unfold await, catch, ret, reject.
    destruct (link_delete prisma n st) as [s1 [d | e]]; [reflexivity |].
    destruct (is_P2003 e); reflexivity. }
  split; [| split].
  - intros message Hdel. rewrite Hrun, Hdel. reflexivity.
  - intros e He Hdel. rewrite Hrun, Hdel.
    apply is_P2003_false in He. rewrite He. reflexivity.
  - intros deleted Hdel. rewrite Hrun, Hdel. reflexivity.
Qed.

Lemma deleteLink_store_outcomes_witness :
  deleteLink (refusing_writes P2003 MemDb.client) "7" sample_store =
  (sample_store,
   Rejected (GraphQLError "Cannot delete non-existing link with id '7'."))
  /\ deleteLink (refusing_writes (Error "Error" "connection closed")
                   MemDb.client) "7" sample_store =
     (sample_store, Rejected (Error "Error" "connection closed"))
  /\ deleteLink MemDb.client "7" sample_store =
     MemDb.deleteLink (Int 7) sample_store.
Proof.
  split; [| split].
  - exact (proj1 (deleteLink_store_outcomes
                    (refusing_writes P2003 MemDb.client)
                    "7" (Int 7) _ sample_store sample_store eq_refl eq_refl)
             _ eq_refl).
  - refine (proj1 (proj2 (deleteLink_store_outcomes
                            (refusing_writes (Error "Error" "connection closed")
                               MemDb.client)
                            "7" (Int 7) _ sample_store sample_store eq_refl eq_refl))
              _ _ eq_refl).
    intros message. discriminate.
  - exact (proj2 (proj2 (deleteLink_store_outcomes MemDb.client
                           "7" (Int 7) _ sample_store _ eq_refl eq_refl))
             _ eq_refl).
Defined.

(** Deleting link 7 of the sample store takes its comment with it. *)
Example deleteLink_cascade_example :
  deleteLink MemDb.client "7" sample_store =
  ({| MemDb.links :=
        [ {| Link.id := 1; Link.createdAt := 10; Link.description := "first";
             Link.url := "http://a"; Link.postedById := None |} ];
      MemDb.comments :=
        [ {| Comment.id := 2; Comment.body := "meh"; Comment.linkId := Some 1 |} ];
      MemDb.users := [];
      MemDb.nextLinkId := 8; MemDb.nextCommentId := 3; MemDb.clock := 100 |},
   Resolved {| Link.id := 7; Link.createdAt := 20;
               Link.description := "seventh"; Link.url := "http://g";
               Link.postedById := None |}).
Proof. reflexivity. Qed.

(** ** The comment mutations *)

Section CommentMutations.

Context {db : Type} (prisma : PrismaClient db).
Variables (commentId : string) (n : number) (st : db).
Hypothesis parsed : parseIntSafe commentId = Some n.

Lemma deleteCommentOnLink_missing_comment :
  comment_findUnique prisma n st = Resolved None ->
  deleteCommentOnLink prisma commentId st =
  (st, Rejected (GraphQLError
                   ("Comment with ID: '" ++ commentId ++ "' does not exist."))).
Proof.
  intros Hfind. unfold deleteCommentOnLink. rewrite parsed. cbv zeta.
  unfold await at 1. unfold query. rewrite Hfind. reflexivity.
Qed.

Lemma updateCommentOnLink_missing_comment (body : string) :
  comment_findUnique prisma n st = Resolved None ->
  updateCommentOnLink prisma commentId body st =
  (st, Rejected (GraphQLError
                   ("Comment with ID: '" ++ commentId ++ "' does not exist."))).
Proof.
  intros Hfind. unfold updateCommentOnLink. rewrite parsed. cbv zeta.
  unfold await at 1. unfold query. rewrite Hfind. reflexivity.
Qed.

Lemma deleteCommentOnLink_P2003 (c : Comment.t) (st' : db) (message : string) :
  comment_findUnique prisma n st = Resolved (Some c) ->
  comment_delete prisma n st =
  (st', Rejected (PrismaClientKnownRequestError "P2003" message)) ->
  deleteCommentOnLink prisma commentId st =
  (st', Rejected (GraphQLError
                    ("Cannot delete a non-existing comment with id '"
                     ++ commentId ++ "'."))).
Proof.
  intros Hfind Hdel. unfold deleteCommentOnLink. rewrite parsed. cbv zeta.
  unfold await at 1. unfold query. rewrite Hfind.
  unfold await, catch. rewrite Hdel. reflexivity.
Qed.

(** The handler of [updateCommentOnLink] carries the message of
    [postCommentOnLink], with the comment id where the link id was. *)
Lemma updateCommentOnLink_P2003 (body : string) (c : Comment.t) (st' : db)
  (message : string) :
  comment_findUnique prisma n st = Resolved (Some c) ->
  comment_update prisma n body st =
  (st', Rejected (PrismaClientKnownRequestError "P2003" message)) ->
  updateCommentOnLink prisma commentId body st =
  (st', Rejected (GraphQLError
                    ("Cannot post comment on non-existing link with id '"
                     ++ commentId ++ "'."))).
Proof.
  intros Hfind Hupd. unfold updateCommentOnLink. rewrite parsed. cbv zeta.
  unfold await at 1. unfold query. rewrite Hfind.
  unfold await, catch. rewrite Hupd. reflexivity.
Qed.

End CommentMutations.

(** C7: on the sample store, whose comment 1 exists, a P2003 refusal of the
    store's [update] makes [updateCommentOnLink] fail with "Cannot post
    comment on non-existing link with id '1'.": the message
    [postCommentOnLink] gives for link 1, naming a link where the id is a
    comment's, while [deleteCommentOnLink] names the comment. *)
Theorem updateCommentOnLink_P2003_names_a_link :
  updateCommentOnLink (refusing_writes P2003 MemDb.client) "1" "edited"
    sample_store =
  (sample_store,
   Rejected (GraphQLError
               "Cannot post comment on non-existing link with id '1'."))
  /\ postCommentOnLink (refusing_writes P2003 MemDb.client) "1" "edited"
       sample_store =
     (sample_store,
      Rejected (GraphQLError
                  "Cannot post comment on non-existing link with id '1'."))
  /\ deleteCommentOnLink (refusing_writes P2003 MemDb.client) "1" sample_store =
     (sample_store,
      Rejected (GraphQLError
                  "Cannot delete a non-existing comment with id '1'."))
  /\ comment_findUnique MemDb.client (Int 1) sample_store =
     Resolved (Some {| Comment.id := 1; Comment.body := "nice";
                       Comment.linkId := Some 7 |}).
Proof. repeat split. Qed.

(** ** Queries by id *)

Lemma find_link_by_id (ls : list Link.t) (l : Link.t) :
  NoDup (map Link.id ls) -> In l ls ->
  find (MemDb.hasLinkId l.(Link.id)) ls = Some l.
Proof.
  induction ls as [| x ls IH]; intros Hnd Hin; [contradiction |].
  simpl in Hnd. inversion Hnd as [| ? ? Hx Hrest]; subst.
  cbn [find]. unfold MemDb.hasLinkId at 1.
  destruct Hin as [-> | Hin].
  - rewrite Z.eqb_refl. reflexivity.
  - destruct (Z.eqb_spec x.(Link.id) l.(Link.id)) as [E | _].
    + exfalso. apply Hx. rewrite E. apply in_map. exact Hin.
    + apply IH; assumption.
Qed.

Lemma find_link_absent (ls : list Link.t) (n : Z) :
  (forall l, In l ls -> l.(Link.id) <> n) ->
  find (MemDb.hasLinkId n) ls = None.
Proof.
  intros H. destruct (find (MemDb.hasLinkId n) ls) as [l |] eqn:E;
    [| reflexivity].
  apply find_some in E. destruct E as [Hin Hid].
  unfold MemDb.hasLinkId in Hid. apply Z.eqb_eq in Hid.
  exfalso. exact (H l Hin Hid).
Qed.

Lemma find_comment_by_id (cs : list Comment.t) (c : Comment.t) :
  NoDup (map Comment.id cs) -> In c cs ->
  find (MemDb.hasCommentId c.(Comment.id)) cs = Some c.
Proof.
  induction cs as [| x cs IH]; intros Hnd Hin; [contradiction |].
  simpl in Hnd. inversion Hnd as [| ? ? Hx Hrest]; subst.
  cbn [find]. unfold MemDb.hasCommentId at 1.
  destruct Hin as [-> | Hin].
  - rewrite Z.eqb_refl. reflexivity.
  - destruct (Z.eqb_spec x.(Comment.id) c.(Comment.id)) as [E | _].
    + exfalso. apply Hx. rewrite E. apply in_map. exact Hin.
    + apply IH; assumption.
Qed.

Lemma find_comment_absent (cs : list Comment.t) (n : Z) :
  (forall c, In c cs -> c.(Comment.id) <> n) ->
  find (MemDb.hasCommentId n) cs = None.
Proof.
  intros H. destruct (find (MemDb.hasCommentId n) cs) as [c |] eqn:E;
    [| reflexivity].
  apply find_some in E. destruct E as [Hin Hid].
  unfold MemDb.hasCommentId in Hid. apply Z.eqb_eq in Hid.
  exfalso. exact (H c Hin Hid).
Qed.

Section QueriesById.

Context {db : Type} (prisma : PrismaClient db).
Variable Number : string -> number.

Lemma executeQuery_linkComments (linkId : string) (st : db) :
  executeQuery prisma Number (Query_linkComments linkId) st =
  (st, match link_findUnique prisma (Number linkId) st with
       | Resolved found => Resolved (nullable LinkValue found)
       | Rejected e => Rejected e
       end).
Proof.
  unfold executeQuery, executeField, resolvers_Query, fmap, linkComments.
  unfold await, query, ret.
  destruct (link_findUnique prisma (Number linkId) st); reflexivity.
Qed.

Lemma executeQuery_comment (commentId : string) (st : db) :
  executeQuery prisma Number (Query_comment commentId) st =
  (st, match comment_findUnique prisma (Number commentId) st with
       | Resolved found => Resolved (nullable CommentValue found)
       | Rejected e => Rejected e
       end).
Proof.
  unfold executeQuery, executeField, resolvers_Query, fmap, comment.
  unfold await, query, ret.
  destruct (comment_findUnique prisma (Number commentId) st); reflexivity.
Qed.

(** The field [link] has no resolver: whatever the store holds, it
    completes to null without a query. *)
Lemma executeQuery_link (linkId : string) (st : db) :
  executeQuery prisma Number (Query_link linkId) st = (st, Resolved Null).
Proof. reflexivity. Qed.

End QueriesById.

(** The half of C2 about [comment]: on the in-memory store the query
    returns the comment with the id the argument denotes, and null when
    there is none. *)
Lemma comment_query_by_id (Number : string -> number) (commentId : string)
  (n : Z) (st : MemDb.t) :
  Number commentId = Int n ->
  (forall c, NoDup (map Comment.id st.(MemDb.comments)) ->
             In c st.(MemDb.comments) -> c.(Comment.id) = n ->
             executeQuery MemDb.client Number (Query_comment commentId) st =
             (st, Resolved (CommentValue c)))
  /\ ((forall c, In c st.(MemDb.comments) -> c.(Comment.id) <> n) ->
      executeQuery MemDb.client Number (Query_comment commentId) st =
      (st, Resolved Null)).
Proof.
  intros HN. split.
  - intros c Hnd Hin <-. rewrite executeQuery_comment. cbn. rewrite HN.
    cbn. rewrite (find_comment_by_id _ c Hnd Hin). reflexivity.
  - intros Habs. rewrite executeQuery_comment. cbn. rewrite HN.
    cbn. rewrite (find_comment_absent _ n Habs). reflexivity.
Qed.

(** C2: link 7 is in the sample store and [linkComments] returns it, yet
    the query [link] answers null for it, as it does for every argument
    and every store; [comment] does return comment 1. *)
Theorem link_query_answers_null_for_stored_link :
  executeQuery MemDb.client Number_of_digits (Query_link "7") sample_store =
  (sample_store, Resolved Null)
  /\ link_findUnique MemDb.client (Int 7) sample_store =
     Resolved (Some {| Link.id := 7; Link.createdAt := 20;
                       Link.description := "seventh"; Link.url := "http://g";
                       Link.postedById := None |})
  /\ executeQuery MemDb.client Number_of_digits (Query_linkComments "7")
       sample_store =
     (sample_store,
      Resolved (LinkValue {| Link.id := 7; Link.createdAt := 20;
                             Link.description := "seventh";
                             Link.url := "http://g";
                             Link.postedById := None |}))
  /\ executeQuery MemDb.client Number_of_digits (Query_comment "1")
       sample_store =
     (sample_store,
      Resolved (CommentValue {| Comment.id := 1; Comment.body := "nice";
                                Comment.linkId := Some 7 |})).
Proof. repeat split. Qed.

(** C9, the claim refuted: for the id "abc", which [Number] turns into
    [NaN], the store refuses the lookup and [linkComments] is rejected with
    the store's error; it does not answer null. *)
Lemma linkComments_rejects_a_non_numeric_id :
  Number_of_digits "abc" = NonInt /\
  executeQuery MemDb.client Number_of_digits (Query_linkComments "abc")
    sample_store =
  (sample_store,
   Rejected (Error "PrismaClientValidationError" "Argument id: expected Int")).
Proof. split; reflexivity. Qed.

(** C9 as the code has it: the query [linkComments] is the store's
    [findUnique] on links at [Number(linkId)].  On the in-memory store,
    when [Number(linkId)] is an integer the [Int] column holds, it returns
    the link with that id, a link and not its comments, and null when no
    link has the id; when [Number(linkId)] is not an integer, the lookup is
    refused and the query is rejected with the store's error. *)
Theorem linkComments_by_numeric_id :
  (forall db (prisma : PrismaClient db) Number linkId (st : db),
      executeQuery prisma Number (Query_linkComments linkId) st =
      (st, match link_findUnique prisma (Number linkId) st with
           | Resolved found => Resolved (nullable LinkValue found)
           | Rejected e => Rejected e
           end)) /\
  (forall Number linkId (st : MemDb.t) (l : Link.t),
      Number linkId = Int l.(Link.id) ->
      -2147483648 <= l.(Link.id) <= 2147483647 ->
      NoDup (map Link.id st.(MemDb.links)) ->
      In l st.(MemDb.links) ->
      executeQuery MemDb.client Number (Query_linkComments linkId) st =
      (st, Resolved (LinkValue l))) /\
  (forall Number linkId (n : Z) (st : MemDb.t),
      Number linkId = Int n ->
      -2147483648 <= n <= 2147483647 ->
      (forall l, In l st.(MemDb.links) -> l.(Link.id) <> n) ->
      executeQuery MemDb.client Number (Query_linkComments linkId) st =
      (st, Resolved Null)) /\
  (forall Number linkId (st : MemDb.t),
      Number linkId = NonInt ->
      executeQuery MemDb.client Number (Query_linkComments linkId) st =
      (st, Rejected (Error "PrismaClientValidationError"
                       "Argument id: expected Int"))).
Proof.
  split; [| split; [| split]].
  - intros db prisma Number linkId st. apply executeQuery_linkComments.
  - intros Number linkId st l HN _ Hnd Hin.
    rewrite executeQuery_linkComments. cbn. rewrite HN. cbn.
    rewrite (find_link_by_id _ l Hnd Hin). reflexivity.
  - intros Number linkId n st HN _ Habs.
    rewrite executeQuery_linkComments. cbn. rewrite HN. cbn.
    rewrite (find_link_absent _ n Habs). reflexivity.
  - intros Number linkId st HN.
    rewrite executeQuery_linkComments. cbn. rewrite HN. reflexivity.
Qed.

Lemma linkComments_by_numeric_id_witness :
  executeQuery MemDb.client Number_of_digits (Query_linkComments "7")
    sample_store =
  (sample_store,
   Resolved (LinkValue {| Link.id := 7; Link.createdAt := 20;
                          Link.description := "seventh"; Link.url := "http://g";
                          Link.postedById := None |}))
  /\ executeQuery MemDb.client Number_of_digits (Query_linkComments "42")
       sample_store =
     (sample_store, Resolved Null)
  /\ executeQuery MemDb.client Number_of_digits (Query_linkComments "1.5x")
       sample_store =
     (sample_store,
      Rejected (Error "PrismaClientValidationError" "Argument id: expected Int")).
Proof.
  destruct linkComments_by_numeric_id as (_ & Hfound & Habsent & Hrefused).
  split; [| split].
  - apply (Hfound Number_of_digits "7" sample_store).
    + reflexivity.
    + cbn [Link.id]. lia.
    + simpl. repeat constructor; simpl; intuition discriminate.
    + simpl. right. left. reflexivity.
  - apply (Habsent Number_of_digits "42" 42 sample_store).
    + reflexivity.
    + lia.
    + simpl. intros l [<- | [<- | []]]; discriminate.
  - apply (Hrefused Number_of_digits "1.5x" sample_store). reflexivity.
Defined.

(** ** The auth helper *)

Lemma split_without_separator (sep : ascii) (s : string) :
  Forall (fun c => c <> sep) (list_ascii_of_string s) -> split sep s = [s].
Proof.
  induction s as [| c s IH]; intros H; [reflexivity |].
  simpl in H. inversion H as [| ? ? Hc Hs]; subst.
  cbn [split]. apply Ascii.eqb_neq in Hc. rewrite Hc, (IH Hs). reflexivity.
Qed.

(** The token of a [Bearer] header is what the helper extracts. *)
Lemma second_word_bearer (token : string) :
  Forall (fun c => c <> " "%char) (list_ascii_of_string token) ->
  second_word (js_string ("Bearer " ++ token)) = Some token.
Proof.
  intros H. unfold second_word. cbn [append split Ascii.eqb Bool.eqb].
  rewrite (split_without_separator _ _ H). reflexivity.
Qed.

Section AuthOutcomes.

Context {db : Type}.
Variable verify : string -> string -> outcome JwtPayload.
Variables (prisma : PrismaClient db) (request : FastifyRequest) (st : db).

Let header := request.(headers_authorization).

Lemma authenticateUser_no_token :
  second_word header = None \/ second_word header = Some "" ->
  Auth.authenticateUser verify prisma request st = (st, Resolved None).
Proof.
  unfold Auth.authenticateUser. fold header.
  intros [H | H]; rewrite H; destruct (not_null header); reflexivity.
Qed.

Lemma authenticateUser_token (token : string) :
  second_word header = Some token -> token <> "" ->
  Auth.authenticateUser verify prisma request st =
  match verify token APP_SECRET with
  | Resolved payload => (st, user_findUnique prisma payload.(userId) st)
  | Rejected e => (st, Rejected e)
  end.
Proof.
  intros H Hne. unfold Auth.authenticateUser. fold header. rewrite H.
  assert (E : not_null header = true).
  { destruct header; try reflexivity; discriminate H. }
  rewrite E. destruct token as [| c token]; [congruence |].
  cbn [falsy]. unfold await, call, query.
  destruct (verify _ APP_SECRET); reflexivity.
Qed.

End AuthOutcomes.

(** C8, the claim refuted: with a [Bearer] header whose token the verifier
    refuses, the helper of the verifying version rejects with the verifier's
    error instead of resolving to a null user. *)
Lemma authenticateUser_rejects_on_failed_verification :
  Auth.authenticateUser verify_nothing MemDb.client
    (request_with (js_string "Bearer abc")) sample_store =
  (sample_store, Rejected (Error "JsonWebTokenError" "invalid signature")).
Proof. reflexivity. Qed.

(** C8 as the code has it: the verifying helper resolves to a null user
    when the header is missing, null, or has no non-empty second word; for
    any other header it hands the second word to [verify], rejects with the
    error [verify] throws, and on success returns the store's answer for the
    user id of the payload.  The stubbed helper resolves to a null user for
    every request. *)
Theorem authenticateUser_outcomes
  {db : Type} (verify : string -> string -> outcome JwtPayload)
  (prisma : PrismaClient db) (request : FastifyRequest) (st : db) :
  let header := request.(headers_authorization) in
  (header = js_undefined \/ header = js_null \/
   (exists h, header = js_string h /\
              (nth_error (split " " h) 1 = None \/
               nth_error (split " " h) 1 = Some "")) ->
   Auth.authenticateUser verify prisma request st = (st, Resolved None)) /\
  (forall h token e,
      header = js_string h ->
      nth_error (split " " h) 1 = Some token -> token <> "" ->
      verify token APP_SECRET = Rejected e ->
      Auth.authenticateUser verify prisma request st = (st, Rejected e)) /\
  (forall h token payload,
      header = js_string h ->
      nth_error (split " " h) 1 = Some token -> token <> "" ->
      verify token APP_SECRET = Resolved payload ->
      Auth.authenticateUser verify prisma request st =
      (st, user_findUnique prisma payload.(userId) st)) /\
  AuthStub.authenticateUser prisma request st = (st, Resolved None).
Proof.
  intros header. split; [| split; [| split]].
  - intros H. apply authenticateUser_no_token. fold header.
    destruct H as [-> | [-> | (h & -> & H)]]; [left | left | exact H];
      reflexivity.
  - intros h token e Hh Htok Hne Hv.
    rewrite (authenticateUser_token verify prisma request st token);
      [rewrite Hv; reflexivity | fold header; rewrite Hh; exact Htok | exact Hne].
  - intros h token payload Hh Htok Hne Hv.
    rewrite (authenticateUser_token verify prisma request st token);
      [rewrite Hv; reflexivity | fold header; rewrite Hh; exact Htok | exact Hne].
  - reflexivity.
Qed.

Lemma authenticateUser_outcomes_witness :
  Auth.authenticateUser verify_nothing MemDb.client (request_with js_undefined)
    sample_store = (sample_store, Resolved None)
  /\ Auth.authenticateUser verify_nothing MemDb.client
       (request_with (js_string "Bearer")) sample_store =
     (sample_store, Resolved None)
  /\ Auth.authenticateUser verify_nothing MemDb.client
       (request_with (js_string "Bearer abc")) sample_store =
     (sample_store, Rejected (Error "JsonWebTokenError" "invalid signature"))
  /\ Auth.authenticateUser verify_user_1 MemDb.client
       (request_with (js_string "Bearer abc")) sample_store =
     (sample_store, user_findUnique MemDb.client (Int 1) sample_store).
Proof.
  split; [| split; [| split]].
  - apply (proj1 (authenticateUser_outcomes verify_nothing MemDb.client
                    (request_with js_undefined) sample_store)).
    left. reflexivity.
  - apply (proj1 (authenticateUser_outcomes verify_nothing MemDb.client
                    (request_with (js_string "Bearer")) sample_store)).
    right. right. exists "Bearer". split; [reflexivity | left; reflexivity].
  - apply (proj1 (proj2 (authenticateUser_outcomes verify_nothing MemDb.client
                           (request_with (js_string "Bearer abc")) sample_store))
             "Bearer abc" "abc");
      [reflexivity | reflexivity | discriminate | reflexivity].
  - apply (proj1 (proj2 (proj2 (authenticateUser_outcomes verify_user_1
                                  MemDb.client
                                  (request_with (js_string "Bearer abc"))
                                  sample_store)))
             "Bearer abc" "abc" {| userId := Int 1 |});
      [reflexivity | reflexivity | discriminate | reflexivity].
Defined.

(** * Further properties of the resolvers *)

(** ** The resolvers past their checks *)

Section PastTheChecks.

Context {db : Type} (prisma : PrismaClient db).
Variables (id : string) (n : number) (st : db).
Hypothesis parsed : parseIntSafe id = Some n.

Lemma deleteLink_found (l : Link.t) :
  link_findUnique prisma n st = Resolved (Some l) ->
  deleteLink prisma id st =
  match link_delete prisma n st with
  | (s1, Resolved deleted) => (s1, Resolved deleted)
  | (s1, Rejected e) =>
      (s1, Rejected (remapped ("Cannot delete non-existing link with id '"
                               ++ id ++ "'.") e))
  end.
Proof.
  intros Hfind. unfold deleteLink. rewrite parsed. cbv zeta.
  unfold await at 1. unfold query. rewrite Hfind.
  unfold await, catch, ret, reject, remapped.
  destruct (link_delete prisma n st) as [s1 [d | e]]; [reflexivity |].
  destruct (is_P2003 e); reflexivity.
Qed.

Lemma postCommentOnLink_found (body : string) (l : Link.t) :
  link_findUnique prisma n st = Resolved (Some l) ->
  body <> "" ->
  postCommentOnLink prisma id body st =
  match comment_create prisma body n st with
  | (s1, Resolved created) => (s1, Resolved created)
  | (s1, Rejected e) =>
      (s1, Rejected (remapped
                       ("Cannot post comment on non-existing link with id '"
                        ++ id ++ "'.") e))
  end.
Proof.
  intros Hfind Hbody. unfold postCommentOnLink. rewrite parsed. cbv zeta.
  unfold await at 1. unfold query. rewrite Hfind.
  destruct body as [| c body]; [congruence |]. cbn [falsy].
  unfold await, catch, ret, reject, remapped.
  destruct (comment_create prisma _ n st) as [s1 [d | e]]; [reflexivity |].
  destruct (is_P2003 e); reflexivity.
Qed.

Lemma deleteCommentOnLink_found (c : Comment.t) :
  comment_findUnique prisma n st = Resolved (Some c) ->
  deleteCommentOnLink prisma id st =
  match comment_delete prisma n st with
  | (s1, Resolved deleted) => (s1, Resolved deleted)
  | (s1, Rejected e) =>
      (s1, Rejected (remapped ("Cannot delete a non-existing comment with id '"
                               ++ id ++ "'.") e))
  end.
Proof.
  intros Hfind. unfold deleteCommentOnLink. rewrite parsed. cbv zeta.
  unfold await at 1. unfold query. rewrite Hfind.
  unfold await, catch, ret, reject, remapped.
  destruct (comment_delete prisma n st) as [s1 [d | e]]; [reflexivity |].
  destruct (is_P2003 e); reflexivity.
Qed.

Lemma updateCommentOnLink_found (body : string) (c : Comment.t) :
  comment_findUnique prisma n st = Resolved (Some c) ->
  updateCommentOnLink prisma id body st =
  match comment_update prisma n body st with
  | (s1, Resolved updated) => (s1, Resolved updated)
  | (s1, Rejected e) =>
      (s1, Rejected (remapped
                       ("Cannot post comment on non-existing link with id '"
                        ++ id ++ "'.") e))
  end.
Proof.
  intros Hfind. unfold updateCommentOnLink. rewrite parsed. cbv zeta.
  unfold await at 1. unfold query. rewrite Hfind.
  unfold await, catch, ret, reject, remapped.
  destruct (comment_update prisma n body st) as [s1 [d | e]];
    [reflexivity |].
  destruct (is_P2003 e); reflexivity.
Qed.

End PastTheChecks.

Lemma remapped_P2003 (message detail : string) :
  remapped message (PrismaClientKnownRequestError "P2003" detail) =
  GraphQLError message.
Proof. reflexivity. Qed.

Lemma remapped_other (message : string) (e : error) :
  (forall detail, e <> PrismaClientKnownRequestError "P2003" detail) ->
  remapped message e = e.
Proof.
  intros He. unfold remapped. apply is_P2003_false in He. rewrite He.
  reflexivity.
Qed.

(** [linkFeed] with the page in bounds. *)
Lemma linkFeed_in_bounds
  {db : Type} (prisma : PrismaClient db)
  (filterNeedle : option string) (take skip : option Z) (st : db) :
  1 <= take ?? 30 <= 50 ->
  0 <= skip ?? 0 <= 50 ->
  linkFeed prisma filterNeedle skip take st =
  (st, link_findMany prisma
         match filterNeedle with
         | Some needle =>
             if falsy needle then where_any
             else where_OR [description_contains needle; url_contains needle]
         | None => where_any
         end (take ?? 30) (skip ?? 0) st).
Proof.
  intros Ht Hs.
  assert (Et : out_of_range {| min := 1; max := 50; value := take ?? 30 |}
               = false) by (apply out_of_range_false; exact Ht).
  assert (Es : out_of_range {| min := 0; max := 50; value := skip ?? 0 |}
               = false) by (apply out_of_range_false; exact Hs).
  unfold linkFeed, await, call, query, ret, applyTakeConstraints,
    applySkipConstraints.
  rewrite Et, Es. cbn [value].
  destruct (link_findMany prisma _ _ _ st); reflexivity.
Qed.

(** ** The existence checks of the mutations *)

(** X1: when the id parses, [deleteLink] answers a link the store does not
    find with "Link with ID: ... does not exist.", and an error of the
    lookup itself is passed on as it is, a P2003 included; either way the
    store is left as it was. *)
Theorem deleteLink_lookup_failures
  {db : Type} (prisma : PrismaClient db) (id : string) (n : number) (st : db) :
  parseIntSafe id = Some n ->
  (link_findUnique prisma n st = Resolved None ->
   deleteLink prisma id st =
   (st, Rejected (GraphQLError ("Link with ID: '" ++ id ++ "' does not exist."))))
  /\ (forall e,
         link_findUnique prisma n st = Rejected e ->
         deleteLink prisma id st = (st, Rejected e)).
Proof.
  intros Hparse. unfold deleteLink. rewrite Hparse. cbv zeta.
  split; [intros Hfind | intros e Hfind];
    unfold await at 1; unfold query; rewrite Hfind; reflexivity.
Qed.

Lemma deleteLink_lookup_failures_witness :
  deleteLink MemDb.client "42" sample_store =
  (sample_store, Rejected (GraphQLError "Link with ID: '42' does not exist."))
  /\ deleteLink (offline P2003) "42" tt = (tt, Rejected P2003).
Proof.
  split.
  - exact (proj1 (deleteLink_lookup_failures MemDb.client "42" (Int 42) sample_store
                    eq_refl) eq_refl).
  - exact (proj2 (deleteLink_lookup_failures (offline P2003) "42" (Int 42) tt eq_refl)
             P2003 eq_refl).
Defined.

(** X2: when the id parses, [deleteCommentOnLink] and [updateCommentOnLink]
    answer a comment the store does not find with "Comment with ID: ...
    does not exist.", and pass an error of the lookup on as it is; the store
    is left as it was. *)
Theorem comment_mutations_lookup_failures
  {db : Type} (prisma : PrismaClient db) (commentId body : string) (n : number)
  (st : db) :
  parseIntSafe commentId = Some n ->
  (comment_findUnique prisma n st = Resolved None ->
   deleteCommentOnLink prisma commentId st =
   (st, Rejected (GraphQLError
                    ("Comment with ID: '" ++ commentId ++ "' does not exist.")))
   /\ updateCommentOnLink prisma commentId body st =
      (st, Rejected (GraphQLError
                       ("Comment with ID: '" ++ commentId ++ "' does not exist."))))
  /\ (forall e,
         comment_findUnique prisma n st = Rejected e ->
         deleteCommentOnLink prisma commentId st = (st, Rejected e)
         /\ updateCommentOnLink prisma commentId body st = (st, Rejected e)).
Proof.
  intros Hparse. split.
  - intros Hfind. split.
    + apply (deleteCommentOnLink_missing_comment prisma _ n st Hparse Hfind).
    + apply (updateCommentOnLink_missing_comment prisma _ n st Hparse _ Hfind).
  - intros e Hfind.
    unfold deleteCommentOnLink, updateCommentOnLink. rewrite Hparse. cbv zeta.
    unfold await, query. rewrite Hfind. split; reflexivity.
Qed.

Lemma comment_mutations_lookup_failures_witness :
  (deleteCommentOnLink MemDb.client "9" sample_store =
   (sample_store, Rejected (GraphQLError "Comment with ID: '9' does not exist."))
   /\ updateCommentOnLink MemDb.client "9" "edited" sample_store =
      (sample_store,
       Rejected (GraphQLError "Comment with ID: '9' does not exist.")))
  /\ (deleteCommentOnLink (offline (Error "Error" "timeout")) "9" tt =
      (tt, Rejected (Error "Error" "timeout"))
      /\ updateCommentOnLink (offline (Error "Error" "timeout")) "9" "edited" tt =
         (tt, Rejected (Error "Error" "timeout"))).
Proof.
  split.
  - exact (proj1 (comment_mutations_lookup_failures MemDb.client "9" "edited" (Int 9)
                    sample_store eq_refl) eq_refl).
  - exact (proj2 (comment_mutations_lookup_failures
                    (offline (Error "Error" "timeout")) "9" "edited" (Int 9) tt
                    eq_refl) _ eq_refl).
Defined.

(** ** [postCommentOnLink] once the link is found *)

(** X3: [postCommentOnLink] asks for the body only after the link was
    found: with the link found and an empty body it is rejected with "Body
    is a required field" and the store is left as it was; an error of the
    lookup is passed on whatever the body. *)
Theorem postCommentOnLink_requires_body
  {db : Type} (prisma : PrismaClient db) (linkId body : string) (n : number)
  (st : db) :
  parseIntSafe linkId = Some n ->
  (forall l,
      link_findUnique prisma n st = Resolved (Some l) ->
      body = "" ->
      postCommentOnLink prisma linkId body st =
      (st, Rejected (GraphQLError "🚫 Body is a required field")))
  /\ (forall e,
         link_findUnique prisma n st = Rejected e ->
         postCommentOnLink prisma linkId body st = (st, Rejected e)).
Proof.
  intros Hparse. unfold postCommentOnLink. rewrite Hparse. cbv zeta.
  split.
  - intros l Hfind ->. unfold await at 1. unfold query. rewrite Hfind.
    reflexivity.
  - intros e Hfind. unfold await at 1. unfold query. rewrite Hfind.
    reflexivity.
Qed.

Lemma postCommentOnLink_requires_body_witness :
  postCommentOnLink MemDb.client "7" "" sample_store =
  (sample_store, Rejected (GraphQLError "🚫 Body is a required field"))
  /\ postCommentOnLink (offline (Error "Error" "timeout")) "7" "" tt =
     (tt, Rejected (Error "Error" "timeout")).
Proof.
  split.
  - exact (proj1 (postCommentOnLink_requires_body MemDb.client "7" "" (Int 7)
                    sample_store eq_refl) _ eq_refl eq_refl).
  - exact (proj2 (postCommentOnLink_requires_body
                    (offline (Error "Error" "timeout")) "7" "" (Int 7) tt eq_refl)
             _ eq_refl).
Defined.

(** X4: with the link found and a non-empty body, [postCommentOnLink] asks
    the store to create a comment with that body on the parsed id; a P2003
    answer becomes "Cannot post comment on non-existing link ...", every
    other error is passed on as it is, and the created comment is
    returned. *)
Theorem postCommentOnLink_store_outcomes
  {db : Type} (prisma : PrismaClient db) (linkId body : string) (n : number)
  (l : Link.t) (st st' : db) :
  parseIntSafe linkId = Some n ->
  link_findUnique prisma n st = Resolved (Some l) ->
  body <> "" ->
  (forall message,
      comment_create prisma body n st =
      (st', Rejected (PrismaClientKnownRequestError "P2003" message)) ->
      postCommentOnLink prisma linkId body st =
      (st', Rejected (GraphQLError
                        ("Cannot post comment on non-existing link with id '"
                         ++ linkId ++ "'."))))
  /\ (forall e,
         (forall message, e <> PrismaClientKnownRequestError "P2003" message) ->
         comment_create prisma body n st = (st', Rejected e) ->
         postCommentOnLink prisma linkId body st = (st', Rejected e))
  /\ (forall created,
         comment_create prisma body n st = (st', Resolved created) ->
         postCommentOnLink prisma linkId body st = (st', Resolved created)).
Proof.
  intros Hparse Hfind Hbody.
  rewrite (postCommentOnLink_found prisma linkId n st Hparse body l Hfind Hbody).
  split; [| split].
  - intros message Hc. rewrite Hc. reflexivity.
  - intros e He Hc. rewrite Hc, (remapped_other _ e He). reflexivity.
  - intros created Hc. rewrite Hc. reflexivity.
Qed.

Lemma postCommentOnLink_store_outcomes_witness :
  postCommentOnLink (refusing_writes P2003 MemDb.client) "7" "hi" sample_store =
  (sample_store,
   Rejected (GraphQLError
               "Cannot post comment on non-existing link with id '7'."))
  /\ postCommentOnLink (refusing_writes (Error "Error" "timeout") MemDb.client)
       "7" "hi" sample_store =
     (sample_store, Rejected (Error "Error" "timeout"))
  /\ postCommentOnLink MemDb.client "7" "hi" sample_store =
     MemDb.createComment "hi" (Int 7) sample_store.
Proof.
  split; [| split].
  - refine (proj1 (postCommentOnLink_store_outcomes
                     (refusing_writes P2003 MemDb.client) "7" "hi" (Int 7) _
                     sample_store sample_store eq_refl eq_refl _) _ eq_refl).
    discriminate.
  - refine (proj1 (proj2 (postCommentOnLink_store_outcomes
                            (refusing_writes (Error "Error" "timeout")
                               MemDb.client) "7" "hi" (Int 7) _
                            sample_store sample_store eq_refl eq_refl _))
              _ _ eq_refl); [discriminate | intros message; discriminate].
  - refine (proj2 (proj2 (postCommentOnLink_store_outcomes MemDb.client
                            "7" "hi" (Int 7) _ sample_store _ eq_refl eq_refl _))
              _ eq_refl).
    discriminate.
Defined.

(** ** The comment mutations once the comment is found *)

(** X5: with the id parsed and the comment found, [deleteCommentOnLink]
    turns a P2003 answer of the store's [delete] into "Cannot delete a
    non-existing comment ...", passes every other error on as it is, and
    returns the deleted comment. *)
Theorem deleteCommentOnLink_store_outcomes
  {db : Type} (prisma : PrismaClient db) (commentId : string) (n : number)
  (c : Comment.t) (st st' : db) :
  parseIntSafe commentId = Some n ->
  comment_findUnique prisma n st = Resolved (Some c) ->
  (forall message,
      comment_delete prisma n st =
      (st', Rejected (PrismaClientKnownRequestError "P2003" message)) ->
      deleteCommentOnLink prisma commentId st =
      (st', Rejected (GraphQLError
                        ("Cannot delete a non-existing comment with id '"
                         ++ commentId ++ "'."))))
  /\ (forall e,
         (forall message, e <> PrismaClientKnownRequestError "P2003" message) ->
         comment_delete prisma n st = (st', Rejected e) ->
         deleteCommentOnLink prisma commentId st = (st', Rejected e))
  /\ (forall deleted,
         comment_delete prisma n st = (st', Resolved deleted) ->
         deleteCommentOnLink prisma commentId st = (st', Resolved deleted)).
Proof.
  intros Hparse Hfind.
  rewrite (deleteCommentOnLink_found prisma commentId n st Hparse c Hfind).
  split; [| split].
  - intros message Hdel. rewrite Hdel. reflexivity.
  - intros e He Hdel. rewrite Hdel, (remapped_other _ e He). reflexivity.
  - intros deleted Hdel. rewrite Hdel. reflexivity.
Qed.

Lemma deleteCommentOnLink_store_outcomes_witness :
  deleteCommentOnLink (refusing_writes P2003 MemDb.client) "1" sample_store =
  (sample_store,
   Rejected (GraphQLError "Cannot delete a non-existing comment with id '1'."))
  /\ deleteCommentOnLink (refusing_writes (Error "Error" "timeout") MemDb.client)
       "1" sample_store =
     (sample_store, Rejected (Error "Error" "timeout"))
  /\ deleteCommentOnLink MemDb.client "1" sample_store =
     MemDb.deleteComment (Int 1) sample_store.
Proof.
  split; [| split].
  - exact (proj1 (deleteCommentOnLink_store_outcomes
                    (refusing_writes P2003 MemDb.client) "1" (Int 1) _
                    sample_store sample_store eq_refl eq_refl) _ eq_refl).
  - refine (proj1 (proj2 (deleteCommentOnLink_store_outcomes
                            (refusing_writes (Error "Error" "timeout")
                               MemDb.client) "1" (Int 1) _
                            sample_store sample_store eq_refl eq_refl))
              _ _ eq_refl).
    intros message. discriminate.
  - exact (proj2 (proj2 (deleteCommentOnLink_store_outcomes MemDb.client
                           "1" (Int 1) _ sample_store _ eq_refl eq_refl))
             _ eq_refl).
Defined.

(** X6: with the id parsed and the comment found, [updateCommentOnLink]
    asks the store to set the body of that comment; it returns the updated
    comment, passes an error other than P2003 on as it is, and never lets a
    P2003 through as the store raised it. *)
Theorem updateCommentOnLink_store_outcomes
  {db : Type} (prisma : PrismaClient db) (commentId body : string) (n : number)
  (c : Comment.t) (st st' : db) :
  parseIntSafe commentId = Some n ->
  comment_findUnique prisma n st = Resolved (Some c) ->
  (forall updated,
      comment_update prisma n body st = (st', Resolved updated) ->
      updateCommentOnLink prisma commentId body st = (st', Resolved updated))
  /\ (forall e,
         (forall message, e <> PrismaClientKnownRequestError "P2003" message) ->
         comment_update prisma n body st = (st', Rejected e) ->
         updateCommentOnLink prisma commentId body st = (st', Rejected e))
  /\ (forall message,
         comment_update prisma n body st =
         (st', Rejected (PrismaClientKnownRequestError "P2003" message)) ->
         exists m,
           updateCommentOnLink prisma commentId body st =
           (st', Rejected (GraphQLError m))).
Proof.
  intros Hparse Hfind.
  rewrite (updateCommentOnLink_found prisma commentId n st Hparse body c Hfind).
  split; [| split].
  - intros updated Hupd. rewrite Hupd. reflexivity.
  - intros e He Hupd. rewrite Hupd, (remapped_other _ e He). reflexivity.
  - intros message Hupd. rewrite Hupd. eexists. reflexivity.
Qed.

Lemma updateCommentOnLink_store_outcomes_witness :
  updateCommentOnLink MemDb.client "1" "edited" sample_store =
  MemDb.updateComment (Int 1) "edited" sample_store
  /\ updateCommentOnLink (refusing_writes (Error "Error" "timeout") MemDb.client)
       "1" "edited" sample_store =
     (sample_store, Rejected (Error "Error" "timeout"))
  /\ exists m,
       updateCommentOnLink (refusing_writes P2003 MemDb.client) "1" "edited"
         sample_store =
       (sample_store, Rejected (GraphQLError m)).
Proof.
  split; [| split].
  - exact (proj1 (updateCommentOnLink_store_outcomes MemDb.client
                    "1" "edited" (Int 1) _ sample_store _ eq_refl eq_refl)
             _ eq_refl).
  - refine (proj1 (proj2 (updateCommentOnLink_store_outcomes
                            (refusing_writes (Error "Error" "timeout")
                               MemDb.client) "1" "edited" (Int 1) _
                            sample_store sample_store eq_refl eq_refl))
              _ _ eq_refl).
    intros message. discriminate.
  - exact (proj2 (proj2 (updateCommentOnLink_store_outcomes
                           (refusing_writes P2003 MemDb.client) "1" "edited" (Int 1) _
                           sample_store sample_store eq_refl eq_refl))
             _ eq_refl).
Defined.

(** ** What the queries never do *)

(** X7: no query writes: every root field of [Query], the field resolvers
    [Link.comments] and [Comment.link] and the auth helper return the store
    they were given, whether they resolve or reject. *)
Theorem queries_leave_the_store
  {db : Type} (prisma : PrismaClient db) (Number : string -> number)
  (verify : string -> string -> outcome JwtPayload) (st : db) :
  (forall field, fst (executeQuery prisma Number field st) = st) /\
  (forall parent, fst (Link_comments prisma parent st) = st) /\
  (forall parent, fst (Comment_link prisma parent st) = st) /\
  (forall request, fst (Auth.authenticateUser verify prisma request st) = st).
Proof.
  split; [| split; [| split]].
  - intros [filterNeedle take skip | linkId | commentId | linkId];
      unfold executeQuery, executeField, resolvers_Query, defaultFieldResolver,
        fmap, linkFeed, linkComments, comment, await, call, query, ret.
    + destruct (applyTakeConstraints _); [| reflexivity].
      destruct (applySkipConstraints _); [| reflexivity].
      destruct (link_findMany _ _ _ _ _); reflexivity.
    + reflexivity.
    + destruct (comment_findUnique _ _ _); reflexivity.
    + destruct (link_findUnique _ _ _); reflexivity.
  - reflexivity.
  - reflexivity.
  - intros request. unfold Auth.authenticateUser.
    destruct (not_null _); [| reflexivity].
    destruct (second_word _) as [token |]; [| reflexivity].
    destruct (falsy token); [reflexivity |].
    unfold await, call, query. destruct (verify _ _); reflexivity.
Qed.

(** ** The filter of [linkFeed] *)

(** X8: with the page in bounds, [linkFeed] asks the store for every link
    when [filterNeedle] is omitted or the empty string, and otherwise for
    the links whose description or url contains the needle. *)
Theorem linkFeed_filter
  {db : Type} (prisma : PrismaClient db)
  (filterNeedle : option string) (take skip : option Z) (st : db) :
  1 <= take ?? 30 <= 50 ->
  0 <= skip ?? 0 <= 50 ->
  (filterNeedle = None \/ filterNeedle = Some "" ->
   linkFeed prisma filterNeedle skip take st =
   (st, link_findMany prisma where_any (take ?? 30) (skip ?? 0) st))
  /\ (forall needle,
         filterNeedle = Some needle -> needle <> "" ->
         linkFeed prisma filterNeedle skip take st =
         (st, link_findMany prisma
                (where_OR [description_contains needle; url_contains needle])
                (take ?? 30) (skip ?? 0) st)).
Proof.
  intros Ht Hs. rewrite (linkFeed_in_bounds prisma _ _ _ st Ht Hs). split.
  - intros [-> | ->]; reflexivity.
  - intros needle -> Hne. destruct needle; [congruence | reflexivity].
Qed.

Lemma linkFeed_filter_witness :
  linkFeed MemDb.client (Some "") None None sample_store =
  (sample_store, link_findMany MemDb.client where_any 30 0 sample_store)
  /\ linkFeed MemDb.client (Some "sev") (Some 1) (Some 10) sample_store =
     (sample_store,
      link_findMany MemDb.client
        (where_OR [description_contains "sev"; url_contains "sev"])
        10 1 sample_store).
Proof.
  split.
  - refine (proj1 (linkFeed_filter MemDb.client (Some "") None None
                     sample_store _ _) _);
      [split; discriminate | split; discriminate | right; reflexivity].
  - refine (proj2 (linkFeed_filter MemDb.client (Some "sev") (Some 10) (Some 1)
                     sample_store _ _) "sev" eq_refl _);
      [split; discriminate | split; discriminate | discriminate].
Defined.

(** X9: [linkFeed] never asks the store for a page out of bounds: two
    clients whose [findMany] agree on takes in 1..50 and skips in 0..50
    give the same [linkFeed], for every argument. *)
Theorem linkFeed_asks_only_pages_in_bounds
  {db : Type} (prisma prisma' : PrismaClient db)
  (filterNeedle : option string) (take skip : option Z) (st : db) :
  (forall w t s, 1 <= t <= 50 -> 0 <= s <= 50 ->
                 link_findMany prisma w t s st = link_findMany prisma' w t s st) ->
  linkFeed prisma filterNeedle skip take st =
  linkFeed prisma' filterNeedle skip take st.
Proof.
  intros Hagree. unfold linkFeed, await, call, query, ret,
    applyTakeConstraints, applySkipConstraints.
  destruct (out_of_range {| min := 1; max := 50; value := take ?? 30 |}) eqn:Et;
    [reflexivity |].
  destruct (out_of_range {| min := 0; max := 50; value := skip ?? 0 |}) eqn:Es;
    [reflexivity |].
  apply out_of_range_false in Et. apply out_of_range_false in Es.
  cbn [value min max] in *. rewrite (Hagree _ _ _ Et Es). reflexivity.
Qed.

Lemma linkFeed_asks_only_pages_in_bounds_witness :
  linkFeed MemDb.client (Some "http") (Some 0) (Some 51) sample_store =
  linkFeed (with_findMany findLinks_in_bounds MemDb.client)
    (Some "http") (Some 0) (Some 51) sample_store.
Proof.
  apply (linkFeed_asks_only_pages_in_bounds MemDb.client
           (with_findMany findLinks_in_bounds MemDb.client)).
  intros w t s Ht Hs. cbn [link_findMany MemDb.client with_findMany].
  unfold findLinks_in_bounds.
  destruct Ht as [Ht1 Ht2]. destruct Hs as [Hs1 Hs2].
  apply Z.leb_le in Ht1, Ht2, Hs1, Hs2.
  rewrite Ht1, Ht2, Hs1, Hs2. reflexivity.
Defined.

(** ** The token the auth helper reads *)

Lemma split_first_word (w rest : string) :
  no_space w -> split " " (w ++ String " " rest) = w :: split " " rest.
Proof.
  unfold no_space. induction w as [| c w IH]; intros H; [reflexivity |].
  simpl in H. inversion H as [| ? ? Hc Hw]; subst.
  cbn [append split]. apply Ascii.eqb_neq in Hc. rewrite Hc, (IH Hw).
  reflexivity.
Qed.

Lemma append_empty (s : string) : s ++ "" = s.
Proof. induction s as [| c s IH]; simpl; congruence. Qed.

(** X11: the helper takes the second space-separated word of the header as
    the token and never looks at the first: whatever the scheme word, a
    header with that word alone, or followed by a space and nothing or by
    two spaces, gives a null user without calling [verify]; followed by one
    space and a token, the outcome is that of [verify] on this token (an
    error rejects, a payload is looked up), and what follows the token
    after another space is ignored. *)
Theorem authenticateUser_reads_the_second_word
  {db : Type} (verify : string -> string -> outcome JwtPayload)
  (prisma : PrismaClient db) (host : header_value) (st : db)
  (scheme : string) :
  no_space scheme ->
  let run authorization :=
    Auth.authenticateUser verify prisma
      {| headers_authorization := js_string authorization;
         headers_host := host |} st in
  run scheme = (st, Resolved None) /\
  run (scheme ++ " ") = (st, Resolved None) /\
  (forall rest, run (scheme ++ "  " ++ rest) = (st, Resolved None)) /\
  (forall token rest,
      no_space token -> token <> "" ->
      rest = "" \/ (exists r, rest = String " " r) ->
      run (scheme ++ " " ++ token ++ rest) =
      match verify token APP_SECRET with
      | Resolved payload => (st, user_findUnique prisma payload.(userId) st)
      | Rejected e => (st, Rejected e)
      end).
Proof.
  intros Hscheme run. unfold run.
  split; [| split; [| split]].
  - apply authenticateUser_no_token. left.
    cbn [headers_authorization second_word].
    rewrite (split_without_separator _ _ Hscheme). reflexivity.
  - apply authenticateUser_no_token. right.
    cbn [headers_authorization second_word].
    rewrite (split_first_word scheme "" Hscheme). reflexivity.
  - intros rest. apply authenticateUser_no_token. right.
    cbn [headers_authorization second_word].
    change (scheme ++ "  " ++ rest) with (scheme ++ String " " (String " " rest)).
    rewrite (split_first_word scheme _ Hscheme). reflexivity.
  - intros token rest Htoken Hne Hrest.
    apply authenticateUser_token; [| exact Hne].
    cbn [headers_authorization second_word].
    change (scheme ++ " " ++ token ++ rest)
      with (scheme ++ String " " (token ++ rest)).
    rewrite (split_first_word scheme _ Hscheme).
    destruct Hrest as [-> | [r ->]].
    + rewrite append_empty, (split_without_separator _ _ Htoken).
      reflexivity.
    + rewrite (split_first_word token r Htoken). reflexivity.
Qed.

Lemma authenticateUser_reads_the_second_word_witness :
  Auth.authenticateUser verify_user_1 MemDb.client
    (request_with (js_string "Basic")) sample_store =
  (sample_store, Resolved None)
  /\ Auth.authenticateUser verify_user_1 MemDb.client
       (request_with (js_string "Basic  abc")) sample_store =
     (sample_store, Resolved None)
  /\ Auth.authenticateUser verify_nothing MemDb.client
       (request_with (js_string "Basic abc extra words")) sample_store =
     (sample_store, Rejected (Error "JsonWebTokenError" "invalid signature")).
Proof.
  assert (Hscheme : no_space "Basic")
    by (repeat constructor; discriminate).
  assert (Htoken : no_space "abc")
    by (repeat constructor; discriminate).
  split; [| split].
  - exact (proj1 (authenticateUser_reads_the_second_word verify_user_1
                    MemDb.client (js_string "localhost:4000") sample_store
                    "Basic" Hscheme)).
  - exact (proj1 (proj2 (proj2 (authenticateUser_reads_the_second_word
                                  verify_user_1 MemDb.client
                                  (js_string "localhost:4000") sample_store
                                  "Basic" Hscheme))) "abc").
  - refine (proj2 (proj2 (proj2 (authenticateUser_reads_the_second_word
                                   verify_nothing MemDb.client
                                   (js_string "localhost:4000") sample_store
                                   "Basic" Hscheme)))
              "abc" " extra words" Htoken _ _).
    + discriminate.
    + right. exists "extra words". reflexivity.
Defined.

(** ** The context builder *)

(** X12: the context of the Fastify server is built from the outcome of
    the auth helper: no token gives a context with a null user; a token
    that [verify] refuses rejects the building of the context with the
    error of [verify]; a token that verifies gives the store's answer for
    the user id of the payload as the current user, or the store's error.
    Built on the stubbed helper, and in the earlier builder, the context
    always has a null user.  The context carries the shared client and the
    store is left as it was. *)
Theorem createContext_outcomes
  {db : Type} (verify : string -> string -> outcome JwtPayload)
  (prisma : PrismaClient db) (initialContext : ContextProps.t) (st : db) :
  let header :=
    initialContext.(ContextProps.request).(headers_authorization) in
  let build :=
    FastifyContext.createContext (Auth.authenticateUser verify) prisma
      initialContext st in
  let context user :=
    {| GraphQLContext.prisma := prisma; GraphQLContext.currentUser := user |} in
  (second_word header = None \/ second_word header = Some "" ->
   build = (st, Resolved (context None))) /\
  (forall token e,
      second_word header = Some token -> token <> "" ->
      verify token APP_SECRET = Rejected e ->
      build = (st, Rejected e)) /\
  (forall token payload,
      second_word header = Some token -> token <> "" ->
      verify token APP_SECRET = Resolved payload ->
      build = (st, match user_findUnique prisma payload.(userId) st with
                   | Resolved user => Resolved (context user)
                   | Rejected e => Rejected e
                   end)) /\
  FastifyContext.createContext AuthStub.authenticateUser prisma
    initialContext st = (st, Resolved (context None)) /\
  YogaContext.createContext prisma initialContext st =
  (st, Resolved (context None)).
Proof.
  intros header build context. unfold build, FastifyContext.createContext.
  split; [| split; [| split; [| split]]].
  - intros H. unfold await.
    rewrite (authenticateUser_no_token verify prisma _ st H). reflexivity.
  - intros token e Htok Hne Hv. unfold await.
    rewrite (authenticateUser_token verify prisma _ st token Htok Hne), Hv.
    reflexivity.
  - intros token payload Htok Hne Hv. unfold await.
    rewrite (authenticateUser_token verify prisma _ st token Htok Hne), Hv.
    destruct (user_findUnique prisma _ st); reflexivity.
  - reflexivity.
  - reflexivity.
Qed.

Lemma createContext_outcomes_witness :
  FastifyContext.createContext (Auth.authenticateUser verify_nothing)
    MemDb.client {| ContextProps.request := request_with js_undefined |}
    sample_store =
  (sample_store,
   Resolved {| GraphQLContext.prisma := MemDb.client;
               GraphQLContext.currentUser := None |})
  /\ FastifyContext.createContext (Auth.authenticateUser verify_nothing)
       MemDb.client
       {| ContextProps.request := request_with (js_string "Bearer abc") |}
       sample_store =
     (sample_store, Rejected (Error "JsonWebTokenError" "invalid signature"))
  /\ FastifyContext.createContext (Auth.authenticateUser verify_user_1)
       MemDb.client
       {| ContextProps.request := request_with (js_string "Bearer abc") |}
       sample_store =
     (sample_store,
      Resolved {| GraphQLContext.prisma := MemDb.client;
                  GraphQLContext.currentUser := None |}).
Proof.
  split; [| split].
  - refine (proj1 (createContext_outcomes verify_nothing MemDb.client
                     {| ContextProps.request := request_with js_undefined |}
                     sample_store) _).
    left. reflexivity.
  - refine (proj1 (proj2 (createContext_outcomes verify_nothing MemDb.client
                            {| ContextProps.request :=
                                 request_with (js_string "Bearer abc") |}
                            sample_store)) "abc" _ eq_refl _ eq_refl).
    discriminate.
  - refine (proj1 (proj2 (proj2 (createContext_outcomes verify_user_1
                                   MemDb.client
                                   {| ContextProps.request :=
                                        request_with (js_string "Bearer abc") |}
                                   sample_store)))
              "abc" {| userId := Int 1 |} eq_refl _ eq_refl).
    discriminate.
Defined.

(** ** The mutations on the in-memory store *)

Lemma filter_all {A} (p : A -> bool) (l : list A) :
  (forall x, In x l -> p x = true) -> filter p l = l.
Proof.
  intros H. rewrite (filter_ext_in p (fun _ => true) l H). apply filter_true.
Qed.

Lemma filter_none {A} (p : A -> bool) (l : list A) :
  (forall x, In x l -> p x = false) -> filter p l = [].
Proof.
  intros H. rewrite (filter_ext_in p (fun _ => false) l H). apply filter_false.
Qed.

Lemma find_after_removal {A} (p : A -> bool) (l : list A) :
  find p (filter (fun x => negb (p x)) l) = None.
Proof.
  destruct (find p (filter (fun x => negb (p x)) l)) as [x |] eqn:E;
    [| reflexivity].
  apply find_some in E. destruct E as [Hin Hp].
  apply filter_In in Hin. destruct Hin as [_ Hn].
  rewrite Hp in Hn. discriminate Hn.
Qed.

(** Rows with distinct keys keep distinct keys when some are removed. *)
Lemma NoDup_map_filter {Row : Type} (key : Row -> Z) (keep : Row -> bool) :
  forall rows : list Row,
    NoDup (map key rows) -> NoDup (map key (filter keep rows)).
Proof.
  intros rows. induction rows as [| r rows IH]; intros Hkeys; [constructor |].
  simpl in Hkeys. inversion Hkeys as [| ? ? Hr Hrows]; subst. cbn [filter].
  destruct (keep r); [| exact (IH Hrows)].
  cbn [map]. constructor; [| exact (IH Hrows)].
  intros Hin. apply Hr. apply in_map_iff in Hin.
  destruct Hin as (y & Hy & Hin). apply filter_In in Hin.
  rewrite <- Hy. apply in_map. tauto.
Qed.

Lemma NoDup_map_unique {A B} (f : A -> B) (l : list A) (a b : A) :
  NoDup (map f l) -> In a l -> In b l -> f a = f b -> a = b.
Proof.
  induction l as [| x l IH]; intros H Ha Hb Hab; [contradiction |].
  simpl in H. inversion H as [| ? ? Hx Hl]; subst.
  destruct Ha as [-> | Ha], Hb as [-> | Hb].
  - reflexivity.
  - exfalso. apply Hx. rewrite Hab. apply in_map. exact Hb.
  - exfalso. apply Hx. rewrite <- Hab. apply in_map. exact Ha.
  - exact (IH Hl Ha Hb Hab).
Qed.

Lemma findLink_found (n : Z) (l : Link.t) (st : MemDb.t) :
  MemDb.findLink (Int n) st = Resolved (Some l) ->
  find (MemDb.hasLinkId n) st.(MemDb.links) = Some l
  /\ In l st.(MemDb.links) /\ l.(Link.id) = n.
Proof.
  unfold MemDb.findLink. intros [= H]. split; [exact H |].
  apply find_some in H. unfold MemDb.hasLinkId in H.
  rewrite Z.eqb_eq in H. exact H.
Qed.

Lemma findComment_found (n : Z) (c : Comment.t) (st : MemDb.t) :
  MemDb.findComment (Int n) st = Resolved (Some c) ->
  find (MemDb.hasCommentId n) st.(MemDb.comments) = Some c
  /\ In c st.(MemDb.comments) /\ c.(Comment.id) = n.
Proof.
  unfold MemDb.findComment. intros [= H]. split; [exact H |].
  apply find_some in H. unfold MemDb.hasCommentId in H.
  rewrite Z.eqb_eq in H. exact H.
Qed.

(** X13: deleting a link cascades.  When [deleteLink] finds the link on
    the in-memory store it returns it and leaves a store where the link is
    no longer found, its [comments] field is empty, the other links are
    all kept, and the comments kept are exactly those that were not on
    the link; a former comment of the link is no longer found by id. *)
Theorem deleteLink_cascades (id : string) (n : Z) (l : Link.t) (st : MemDb.t) :
  parseIntSafe id = Some (Int n) ->
  link_findUnique MemDb.client (Int n) st = Resolved (Some l) ->
  exists st',
    deleteLink MemDb.client id st = (st', Resolved l) /\
    link_findUnique MemDb.client (Int n) st' = Resolved None /\
    Link_comments MemDb.client l st' = (st', Resolved []) /\
    (forall k, In k st'.(MemDb.links) <->
               In k st.(MemDb.links) /\ k.(Link.id) <> n) /\
    (forall c, In c st'.(MemDb.comments) <->
               In c st.(MemDb.comments) /\ c.(Comment.linkId) <> Some n) /\
    (NoDup (map Comment.id st.(MemDb.comments)) ->
     forall c, In c st.(MemDb.comments) -> c.(Comment.linkId) = Some n ->
               comment_findUnique MemDb.client (Int c.(Comment.id)) st' =
               Resolved None).
Proof.
  intros Hparse Hfind. cbn [link_findUnique MemDb.client] in Hfind.
  destruct (findLink_found n l st Hfind) as (Hf & Hin & Hid).
  assert (HonLink : forall c, MemDb.onLink n c = true <->
                              c.(Comment.linkId) = Some n).
  { intros c. unfold MemDb.onLink. destruct (Comment.linkId c) as [k |].
    - rewrite Z.eqb_eq. split; congruence.
    - split; discriminate. }
  assert (Hcomments : forall c st0,
             In c (filter (fun c => negb (MemDb.onLink n c)) st0) <->
             In c st0 /\ c.(Comment.linkId) <> Some n).
  { intros c st0. rewrite filter_In, negb_true_iff, <- not_true_iff_false,
      HonLink. reflexivity. }
  eexists. split; [| split; [| split; [| split; [| split]]]].
  - rewrite (deleteLink_found MemDb.client id (Int n) st Hparse l Hfind).
    cbn [link_delete MemDb.client]. unfold MemDb.deleteLink. rewrite Hf.
    reflexivity.
  - cbn [link_findUnique MemDb.client MemDb.findLink MemDb.links].
    rewrite (find_after_removal (MemDb.hasLinkId n)). reflexivity.
  - unfold Link_comments, query. cbn [comment_findMany MemDb.client].
    unfold MemDb.findComments. cbn [MemDb.comments].
    rewrite Hid, (filter_none (MemDb.onLink n)); [reflexivity |].
    intros c Hc. apply Hcomments in Hc. destruct Hc as [_ Hc].
    apply not_true_iff_false. rewrite HonLink. exact Hc.
  - intros k. cbn [MemDb.links]. rewrite filter_In, negb_true_iff.
    unfold MemDb.hasLinkId. rewrite Z.eqb_neq. reflexivity.
  - intros c. cbn [MemDb.comments]. apply Hcomments.
  - intros Hnd c Hc Hon.
    cbn [comment_findUnique MemDb.client MemDb.findComment MemDb.comments].
    rewrite find_comment_absent; [reflexivity |].
    intros c' Hc' Heq. apply Hcomments in Hc'. destruct Hc' as [Hc' Hoff].
    apply Hoff. rewrite (NoDup_map_unique Comment.id _ c' c Hnd Hc' Hc Heq).
    exact Hon.
Qed.

Lemma deleteLink_cascades_witness :
  exists st',
    deleteLink MemDb.client "7" sample_store =
    (st', Resolved {| Link.id := 7; Link.createdAt := 20;
                      Link.description := "seventh"; Link.url := "http://g";
                      Link.postedById := None |}) /\
    link_findUnique MemDb.client (Int 7) st' = Resolved None /\
    comment_findUnique MemDb.client (Int 1) st' = Resolved None.
Proof.
  destruct (deleteLink_cascades "7" 7 _ sample_store eq_refl eq_refl)
    as (st' & Hrun & Hgone & _ & _ & _ & Hformer).
  exists st'. split; [exact Hrun | split; [exact Hgone |]].
  apply (Hformer ltac:(simpl; repeat constructor; simpl; intuition discriminate)
           {| Comment.id := 1; Comment.body := "nice";
              Comment.linkId := Some 7 |}).
  - left. reflexivity.
  - reflexivity.
Defined.

(** X14: a comment posted on a found link is attached to it.  On the
    in-memory store [postCommentOnLink] with a non-empty body returns a
    comment with that body and the parsed link id; afterwards the comments
    of the store are those it had and the new one, the comment's [link]
    field resolves to the link, the link's [comments] field holds what it
    held and the new comment, and the links are untouched. *)
Theorem postCommentOnLink_attaches_the_comment
  (linkId body : string) (n : Z) (l : Link.t) (st : MemDb.t) :
  parseIntSafe linkId = Some (Int n) ->
  link_findUnique MemDb.client (Int n) st = Resolved (Some l) ->
  body <> "" ->
  exists c st',
    postCommentOnLink MemDb.client linkId body st = (st', Resolved c) /\
    c.(Comment.body) = body /\
    c.(Comment.linkId) = Some n /\
    st'.(MemDb.links) = st.(MemDb.links) /\
    (forall x, In x st'.(MemDb.comments) <->
               In x st.(MemDb.comments) \/ x = c) /\
    Comment_link MemDb.client c st' = (st', Resolved (Some l)) /\
    (forall before,
        Link_comments MemDb.client l st = (st, Resolved before) ->
        exists after,
          Link_comments MemDb.client l st' = (st', Resolved after) /\
          forall x, In x after <-> In x before \/ x = c).
Proof.
  intros Hparse Hfind Hbody. cbn [link_findUnique MemDb.client] in Hfind.
  destruct (findLink_found n l st Hfind) as (Hf & Hin & Hid).
  do 2 eexists. split.
  { rewrite (postCommentOnLink_found MemDb.client linkId (Int n) st Hparse
               body l Hfind Hbody).
    cbn [comment_create MemDb.client]. unfold MemDb.createComment.
    rewrite Hf. reflexivity. }
  split; [reflexivity |]. split; [reflexivity |]. split; [reflexivity |].
  split; [| split].
  - intros x. cbn [MemDb.comments]. rewrite in_app_iff. cbn [In].
    split; intros [H | H];
      [ left; exact H
      | destruct H as [<- | []]; right; reflexivity
      | left; exact H
      | right; left; symmetry; exact H ].
  - unfold Comment_link, query. cbn [Comment.linkId nullish].
    cbn [link_findUnique MemDb.client MemDb.findLink MemDb.links].
    rewrite Hf. reflexivity.
  - intros before. unfold Link_comments, query.
    cbn [comment_findMany MemDb.client]. unfold MemDb.findComments.
    cbn [MemDb.comments]. intros [= <-].
    eexists. split; [reflexivity |].
    intros x. rewrite filter_app, in_app_iff. cbn [filter].
    unfold MemDb.onLink at 2. cbn [Comment.linkId].
    rewrite Hid, Z.eqb_refl. cbn [In].
    split; intros [H | H];
      [ left; exact H
      | destruct H as [<- | []]; right; reflexivity
      | left; exact H
      | right; left; symmetry; exact H ].
Qed.

Lemma postCommentOnLink_attaches_the_comment_witness :
  exists c st',
    postCommentOnLink MemDb.client "7" "hi" sample_store = (st', Resolved c) /\
    c.(Comment.body) = "hi" /\
    Comment_link MemDb.client c st' =
    (st', Resolved (Some {| Link.id := 7; Link.createdAt := 20;
                            Link.description := "seventh";
                            Link.url := "http://g";
                            Link.postedById := None |})).
Proof.
  destruct (postCommentOnLink_attaches_the_comment "7" "hi" 7 _ sample_store
              eq_refl eq_refl ltac:(discriminate))
    as (c & st' & Hrun & Hbody & _ & _ & _ & Hlink & _).
  exists c, st'. split; [exact Hrun | split; [exact Hbody | exact Hlink]].
Defined.

Lemma hasCommentId_setBody (n m : Z) (body : string) (c : Comment.t) :
  MemDb.hasCommentId m (MemDb.setBody n body c) = MemDb.hasCommentId m c.
Proof. unfold MemDb.setBody. destruct (MemDb.hasCommentId n c); reflexivity. Qed.

Lemma setBody_keeps (n : Z) (body : string) (c : Comment.t) :
  (MemDb.setBody n body c).(Comment.id) = c.(Comment.id) /\
  (MemDb.setBody n body c).(Comment.linkId) = c.(Comment.linkId).
Proof.
  unfold MemDb.setBody. destruct (MemDb.hasCommentId n c); split; reflexivity.
Qed.

Lemma setBody_other (n : Z) (body : string) (c : Comment.t) :
  c.(Comment.id) <> n -> MemDb.setBody n body c = c.
Proof.
  intros H. unfold MemDb.setBody, MemDb.hasCommentId.
  apply Z.eqb_neq in H. rewrite H. reflexivity.
Qed.

Lemma find_setBody (n m : Z) (body : string) (cs : list Comment.t) :
  find (MemDb.hasCommentId m) (map (MemDb.setBody n body) cs) =
  option_map (MemDb.setBody n body) (find (MemDb.hasCommentId m) cs).
Proof.
  induction cs as [| c cs IH]; [reflexivity |].
  cbn [map find]. rewrite hasCommentId_setBody.
  destruct (MemDb.hasCommentId m c); [reflexivity | exact IH].
Qed.

(** X15: an update is read back.  On the in-memory store
    [updateCommentOnLink] on a found comment returns that comment with the
    new body and the same id and link; afterwards the query [comment] on
    the id returns the returned comment, a comment under another id is
    found as before, the comments with another id are those the store
    had, every comment with the id has the new body, and the links are
    untouched. *)
Theorem updateCommentOnLink_is_read_back
  (Number : string -> number) (commentId body : string) (n : Z)
  (c : Comment.t) (st : MemDb.t) :
  parseIntSafe commentId = Some (Int n) ->
  Number commentId = Int n ->
  comment_findUnique MemDb.client (Int n) st = Resolved (Some c) ->
  exists c' st',
    updateCommentOnLink MemDb.client commentId body st = (st', Resolved c') /\
    c'.(Comment.body) = body /\
    c'.(Comment.id) = c.(Comment.id) /\
    c'.(Comment.linkId) = c.(Comment.linkId) /\
    executeQuery MemDb.client Number (Query_comment commentId) st' =
    (st', Resolved (CommentValue c')) /\
    (forall m, m <> n ->
               comment_findUnique MemDb.client (Int m) st' =
               comment_findUnique MemDb.client (Int m) st) /\
    st'.(MemDb.links) = st.(MemDb.links) /\
    (forall x, x.(Comment.id) <> n ->
               (In x st'.(MemDb.comments) <-> In x st.(MemDb.comments))) /\
    (forall x, In x st'.(MemDb.comments) -> x.(Comment.id) = n ->
               x.(Comment.body) = body).
Proof.
  intros Hparse HN Hfind. cbn [comment_findUnique MemDb.client] in Hfind.
  destruct (findComment_found n c st Hfind) as (Hf & Hin & Hid).
  assert (Hc : MemDb.hasCommentId n c = true)
    by (unfold MemDb.hasCommentId; rewrite Hid; apply Z.eqb_refl).
  do 2 eexists. split.
  { rewrite (updateCommentOnLink_found MemDb.client commentId (Int n) st
               Hparse body c Hfind).
    cbn [comment_update MemDb.client]. unfold MemDb.updateComment.
    rewrite Hf. reflexivity. }
  split; [| split; [| split; [| split; [| split; [| split; [| split]]]]]].
  - unfold MemDb.setBody. rewrite Hc. reflexivity.
  - unfold MemDb.setBody. rewrite Hc. reflexivity.
  - unfold MemDb.setBody. rewrite Hc. reflexivity.
  - rewrite executeQuery_comment, HN.
    cbn [comment_findUnique MemDb.client MemDb.findComment MemDb.comments].
    rewrite find_setBody, Hf. reflexivity.
  - intros m Hm.
    cbn [comment_findUnique MemDb.client MemDb.findComment MemDb.comments].
    rewrite find_setBody.
    destruct (find (MemDb.hasCommentId m) (MemDb.comments st)) as [x |] eqn:E;
      [| reflexivity].
    apply find_some in E. destruct E as [_ E].
    unfold MemDb.hasCommentId in E. apply Z.eqb_eq in E.
    cbn [option_map]. rewrite setBody_other; [reflexivity | lia].
  - reflexivity.
  - intros x Hx. cbn [MemDb.comments]. rewrite in_map_iff. split.
    + intros (y & <- & Hy).
      rewrite (proj1 (setBody_keeps n body y)) in Hx.
      rewrite (setBody_other n body y Hx). exact Hy.
    + intros Hy. exists x. split; [apply setBody_other; exact Hx | exact Hy].
  - intros x Hx Hxid. cbn [MemDb.comments] in Hx. apply in_map_iff in Hx.
    destruct Hx as (y & <- & Hy).
    rewrite (proj1 (setBody_keeps n body y)) in Hxid.
    unfold MemDb.setBody, MemDb.hasCommentId. apply Z.eqb_eq in Hxid.
    rewrite Hxid. reflexivity.
Qed.

Lemma updateCommentOnLink_is_read_back_witness :
  exists c' st',
    updateCommentOnLink MemDb.client "1" "edited" sample_store =
    (st', Resolved c') /\
    c'.(Comment.body) = "edited" /\
    executeQuery MemDb.client Number_of_digits (Query_comment "1") st' =
    (st', Resolved (CommentValue c')).
Proof.
  destruct (updateCommentOnLink_is_read_back Number_of_digits "1" "edited" 1 _
              sample_store eq_refl eq_refl eq_refl)
    as (c' & st' & Hrun & Hbody & _ & _ & Hread & _).
  exists c', st'. split; [exact Hrun | split; [exact Hbody | exact Hread]].
Defined.

(** X16: on the in-memory store [deleteCommentOnLink] on a found comment
    returns it and leaves a store where no comment is found under the id,
    the comments kept are exactly those with another id, and the links are
    untouched. *)
Theorem deleteCommentOnLink_removes_the_comment
  (commentId : string) (n : Z) (c : Comment.t) (st : MemDb.t) :
  parseIntSafe commentId = Some (Int n) ->
  comment_findUnique MemDb.client (Int n) st = Resolved (Some c) ->
  exists st',
    deleteCommentOnLink MemDb.client commentId st = (st', Resolved c) /\
    comment_findUnique MemDb.client (Int n) st' = Resolved None /\
    (forall x, In x st'.(MemDb.comments) <->
               In x st.(MemDb.comments) /\ x.(Comment.id) <> n) /\
    st'.(MemDb.links) = st.(MemDb.links).
Proof.
  intros Hparse Hfind. cbn [comment_findUnique MemDb.client] in Hfind.
  destruct (findComment_found n c st Hfind) as (Hf & Hin & Hid).
  eexists. split; [| split; [| split]].
  - rewrite (deleteCommentOnLink_found MemDb.client commentId (Int n) st Hparse c
               Hfind).
    cbn [comment_delete MemDb.client]. unfold MemDb.deleteComment.
    rewrite Hf. reflexivity.
  - cbn [comment_findUnique MemDb.client MemDb.findComment MemDb.comments].
    rewrite (find_after_removal (MemDb.hasCommentId n)). reflexivity.
  - intros x. cbn [MemDb.comments]. rewrite filter_In, negb_true_iff.
    unfold MemDb.hasCommentId. rewrite Z.eqb_neq. reflexivity.
  - reflexivity.
Qed.

Lemma deleteCommentOnLink_removes_the_comment_witness :
  exists st',
    deleteCommentOnLink MemDb.client "2" sample_store =
    (st', Resolved {| Comment.id := 2; Comment.body := "meh";
                      Comment.linkId := Some 1 |}) /\
    comment_findUnique MemDb.client (Int 2) st' = Resolved None.
Proof.
  destruct (deleteCommentOnLink_removes_the_comment "2" 2 _ sample_store
              eq_refl eq_refl) as (st' & Hrun & Hgone & _).
  exists st'. split; [exact Hrun | exact Hgone].
Defined.

(** ** One write per mutation *)

(** Case analysis on the innermost scrutinee of the goal, keeping the
    equation. *)
Ltac destruct_scrutinee :=
  match goal with
  | |- context [match ?x with _ => _ end] =>
      lazymatch x with
      | context [match _ with _ => _ end] => fail
      | _ => destruct x eqn:?
      end
  end.

(** X17: a mutation writes at most once, and only with the operation of
    its own kind: the store it leaves is the store it was given, or the
    store left by the single [create], [delete] or [update] it is about,
    applied to the store it was given with the parsed id and the arguments
    as they came. *)
Theorem mutations_write_at_most_once
  {db : Type} (prisma : PrismaClient db) (field : MutationField) (st : db) :
  let st' := fst (executeMutation prisma field st) in
  st' = st \/
  match field with
  | Mutation_postLink description url =>
      st' = fst (link_create prisma description url st)
  | Mutation_postCommentOnLink linkId body =>
      exists n, parseIntSafe linkId = Some n /\
                st' = fst (comment_create prisma body n st)
  | Mutation_deleteCommentOnLink commentId =>
      exists n, parseIntSafe commentId = Some n /\
                st' = fst (comment_delete prisma n st)
  | Mutation_updateCommentOnLink commentId body =>
      exists n, parseIntSafe commentId = Some n /\
                st' = fst (comment_update prisma n body st)
  | Mutation_deleteLink id =>
      exists n, parseIntSafe id = Some n /\
                st' = fst (link_delete prisma n st)
  end.
Proof.
  destruct field as [description url | linkId body | commentId
                    | commentId body | id];
    cbv zeta;
    unfold executeMutation, executeField, resolvers_Mutation, fmap,
      postLink, postCommentOnLink, deleteCommentOnLink, updateCommentOnLink,
      deleteLink, await, query, catch, ret, reject;
    repeat destruct_scrutinee;
    first [ left; reflexivity
          | right; reflexivity
          | right; eexists; split; [reflexivity |];
            match goal with
            | E : _ = (_, _) |- _ => rewrite E; reflexivity
            end ].
Qed.

(** ** The constraints of the schema are kept *)

Lemma createLink_ok (description url : string) (st : MemDb.t) :
  store_ok st -> store_ok (fst (MemDb.createLink description url st)).
Proof.
  intros (H1 & H2 & H3 & H4 & H5). unfold store_ok, MemDb.createLink.
  cbn [fst MemDb.links MemDb.comments MemDb.nextLinkId MemDb.nextCommentId].
  split; [| split; [| split; [| split]]].
  - rewrite map_app. apply NoDup_app; [exact H1 | |].
    + cbn [map]. constructor; [intros [] | constructor].
    + intros a Ha [<- | []]. cbn [Link.id] in Ha.
      apply in_map_iff in Ha. destruct Ha as (l & Hl & Hin).
      specialize (H2 l Hin). lia.
  - intros l Hin. apply in_app_or in Hin. destruct Hin as [Hin | [<- | []]].
    + specialize (H2 l Hin). lia.
    + cbn [Link.id]. lia.
  - exact H3.
  - exact H4.
  - intros c k Hc Hk. destruct (H5 c k Hc Hk) as (l & Hin & Hid).
    exists l. split; [apply in_or_app; left; exact Hin | exact Hid].
Qed.

Lemma deleteLink_ok (i : number) (st : MemDb.t) :
  store_ok st -> store_ok (fst (MemDb.deleteLink i st)).
Proof.
  intros Hok. unfold MemDb.deleteLink.
  destruct i as [n |]; [| exact Hok].
  destruct (find (MemDb.hasLinkId n) (MemDb.links st)); [| exact Hok].
  destruct Hok as (H1 & H2 & H3 & H4 & H5). unfold store_ok.
  cbn [fst MemDb.links MemDb.comments MemDb.nextLinkId MemDb.nextCommentId].
  split; [| split; [| split; [| split]]].
  - apply NoDup_map_filter. exact H1.
  - intros l Hin. apply filter_In in Hin. apply H2. tauto.
  - apply NoDup_map_filter. exact H3.
  - intros c Hin. apply filter_In in Hin. apply H4. tauto.
  - intros c k Hc Hk. apply filter_In in Hc. destruct Hc as [Hc Hoff].
    destruct (H5 c k Hc Hk) as (l & Hin & Hid).
    exists l. split; [| exact Hid].
    apply filter_In. split; [exact Hin |].
    unfold MemDb.onLink in Hoff. rewrite Hk in Hoff.
    unfold MemDb.hasLinkId. rewrite Hid. exact Hoff.
Qed.

Lemma createComment_ok (body : string) (i : number) (st : MemDb.t) :
  store_ok st -> store_ok (fst (MemDb.createComment body i st)).
Proof.
  intros Hok. unfold MemDb.createComment.
  destruct i as [linkId |]; [| exact Hok].
  destruct (find (MemDb.hasLinkId linkId) (MemDb.links st)) as [l |] eqn:Hf;
    [| exact Hok].
  apply find_some in Hf. destruct Hf as [Hl Hlid].
  unfold MemDb.hasLinkId in Hlid. apply Z.eqb_eq in Hlid.
  destruct Hok as (H1 & H2 & H3 & H4 & H5). unfold store_ok.
  cbn [fst MemDb.links MemDb.comments MemDb.nextLinkId MemDb.nextCommentId].
  split; [| split; [| split; [| split]]].
  - exact H1.
  - exact H2.
  - rewrite map_app. apply NoDup_app; [exact H3 | |].
    + cbn [map]. constructor; [intros [] | constructor].
    + intros a Ha [<- | []]. cbn [Comment.id] in Ha.
      apply in_map_iff in Ha. destruct Ha as (c & Hc & Hin).
      specialize (H4 c Hin). lia.
  - intros c Hin. apply in_app_or in Hin. destruct Hin as [Hin | [<- | []]].
    + specialize (H4 c Hin). lia.
    + cbn [Comment.id]. lia.
  - intros c k Hin Hk. apply in_app_or in Hin.
    destruct Hin as [Hin | [<- | []]].
    + exact (H5 c k Hin Hk).
    + cbn [Comment.linkId] in Hk. injection Hk as <-.
      exists l. split; assumption.
Qed.

Lemma deleteComment_ok (i : number) (st : MemDb.t) :
  store_ok st -> store_ok (fst (MemDb.deleteComment i st)).
Proof.
  intros Hok. unfold MemDb.deleteComment.
  destruct i as [n |]; [| exact Hok].
  destruct (find (MemDb.hasCommentId n) (MemDb.comments st)); [| exact Hok].
  destruct Hok as (H1 & H2 & H3 & H4 & H5). unfold store_ok.
  cbn [fst MemDb.links MemDb.comments MemDb.nextLinkId MemDb.nextCommentId].
  split; [| split; [| split; [| split]]].
  - exact H1.
  - exact H2.
  - apply NoDup_map_filter. exact H3.
  - intros c Hin. apply filter_In in Hin. apply H4. tauto.
  - intros c k Hc Hk. apply filter_In in Hc. apply (H5 c k); tauto.
Qed.

Lemma updateComment_ok (i : number) (body : string) (st : MemDb.t) :
  store_ok st -> store_ok (fst (MemDb.updateComment i body st)).
Proof.
  intros Hok. unfold MemDb.updateComment.
  destruct i as [n |]; [| exact Hok].
  destruct (find (MemDb.hasCommentId n) (MemDb.comments st)); [| exact Hok].
  destruct Hok as (H1 & H2 & H3 & H4 & H5). unfold store_ok.
  cbn [fst MemDb.links MemDb.comments MemDb.nextLinkId MemDb.nextCommentId].
  assert (Hids : map Comment.id (map (MemDb.setBody n body) (MemDb.comments st))
                 = map Comment.id (MemDb.comments st)).
  { rewrite map_map. apply map_ext. intros c. apply setBody_keeps. }
  split; [| split; [| split; [| split]]].
  - exact H1.
  - exact H2.
  - rewrite Hids. exact H3.
  - intros c Hin. apply in_map_iff in Hin. destruct Hin as (c0 & <- & Hin).
    rewrite (proj1 (setBody_keeps n body c0)). exact (H4 c0 Hin).
  - intros c k Hin Hk. apply in_map_iff in Hin. destruct Hin as (c0 & <- & Hin).
    rewrite (proj2 (setBody_keeps n body c0)) in Hk. exact (H5 c0 k Hin Hk).
Qed.

(** X18: every mutation keeps the constraints of the schema on the
    in-memory store: after it, resolved or rejected, link ids and comment
    ids are still unique and below their counters, and every comment with
    a [linkId] still points to a link of the store. *)
Theorem mutations_keep_the_store_ok (field : MutationField) (st : MemDb.t) :
  store_ok st ->
  store_ok (fst (executeMutation MemDb.client field st)).
Proof.
  intros Hok.
  pose proof (createLink_ok) as HcreateLink.
  pose proof (deleteLink_ok) as HdeleteLink.
  pose proof (createComment_ok) as HcreateComment.
  pose proof (deleteComment_ok) as HdeleteComment.
  pose proof (updateComment_ok) as HupdateComment.
  destruct field as [description url | linkId body | commentId
                    | commentId body | id];
    unfold executeMutation, executeField, resolvers_Mutation, fmap,
      postLink, postCommentOnLink, deleteCommentOnLink, updateCommentOnLink,
      deleteLink, await, query, catch, ret, reject;
    cbn [link_create link_delete comment_create comment_delete comment_update
         link_findUnique comment_findUnique MemDb.client];
    repeat destruct_scrutinee;
    cbn [fst]; try exact Hok;
    match goal with
    | E : MemDb.createLink ?d ?u st = (?s, _) |- store_ok ?s =>
        let H := fresh in
        pose proof (HcreateLink d u st Hok) as H; rewrite E in H; exact H
    | E : MemDb.deleteLink ?i st = (?s, _) |- store_ok ?s =>
        let H := fresh in
        pose proof (HdeleteLink i st Hok) as H; rewrite E in H; exact H
    | E : MemDb.createComment ?b ?k st = (?s, _) |- store_ok ?s =>
        let H := fresh in
        pose proof (HcreateComment b k st Hok) as H; rewrite E in H; exact H
    | E : MemDb.deleteComment ?i st = (?s, _) |- store_ok ?s =>
        let H := fresh in
        pose proof (HdeleteComment i st Hok) as H; rewrite E in H; exact H
    | E : MemDb.updateComment ?i ?b st = (?s, _) |- store_ok ?s =>
        let H := fresh in
        pose proof (HupdateComment i b st Hok) as H; rewrite E in H; exact H
    end.
Qed.

Lemma sample_store_ok : store_ok sample_store.
Proof.
  unfold store_ok, sample_store.
  cbn [MemDb.links MemDb.comments MemDb.nextLinkId MemDb.nextCommentId map
       Link.id Comment.id].
  split; [| split; [| split; [| split]]].
  - repeat constructor; simpl; intuition discriminate.
  - intros l [<- | [<- | []]]; reflexivity.
  - repeat constructor; simpl; intuition discriminate.
  - intros c [<- | [<- | []]]; reflexivity.
  - intros c k [<- | [<- | []]] [= <-]; eexists.
    + split; [right; left; reflexivity | reflexivity].
    + split; [left; reflexivity | reflexivity].
Defined.

Lemma mutations_keep_the_store_ok_witness :
  store_ok sample_store /\
  store_ok (fst (executeMutation MemDb.client (Mutation_deleteLink "7")
                   sample_store)).
Proof.
  split; [exact sample_store_ok |].
  exact (mutations_keep_the_store_ok (Mutation_deleteLink "7") sample_store
           sample_store_ok).
Defined.

(** ** Posting a link and deleting it again *)

Lemma find_app {A} (p : A -> bool) (l1 l2 : list A) :
  find p (l1 ++ l2) =
  match find p l1 with
  | Some x => Some x
  | None => find p l2
  end.
Proof.
  induction l1 as [| x l1 IH]; [reflexivity |].
  cbn [app find]. destruct (p x); [reflexivity | exact IH].
Qed.

(** X19: a posted link can be fetched and deleted under its printed id.
    On an in-memory store that meets the constraints of the schema and
    whose link counter is an id the [Int] column holds, from 0 to
    2147483647, [postLink] with two non-empty
    fields returns a link that [linkComments] then returns for the decimal
    numeral of its id; [deleteLink] on that numeral returns the link and
    leaves the links and the comments as they were before the post, with
    the counter one further, so the id is not given out again. *)
Theorem postLink_then_deleteLink
  (Number : string -> number) (description url : string) (st : MemDb.t) :
  store_ok st ->
  0 <= st.(MemDb.nextLinkId) <= 2147483647 ->
  description <> "" -> url <> "" ->
  exists l st1 st2,
    postLink MemDb.client description url st = (st1, Resolved l) /\
    (Number (string_of_number l.(Link.id)) = Int l.(Link.id) ->
     executeQuery MemDb.client Number
       (Query_linkComments (string_of_number l.(Link.id))) st1 =
     (st1, Resolved (LinkValue l))) /\
    deleteLink MemDb.client (string_of_number l.(Link.id)) st1 =
    (st2, Resolved l) /\
    st2.(MemDb.links) = st.(MemDb.links) /\
    st2.(MemDb.comments) = st.(MemDb.comments) /\
    st2.(MemDb.nextLinkId) = st.(MemDb.nextLinkId) + 1.
Proof.
  intros (H1 & H2 & H3 & H4 & H5) Hnext Hd Hu.
  set (l := {| Link.id := st.(MemDb.nextLinkId);
               Link.createdAt := st.(MemDb.clock);
               Link.description := description;
               Link.url := url;
               Link.postedById := None |}).
  set (st1 := fst (MemDb.createLink description url st)).
  assert (Hfresh : find (MemDb.hasLinkId st.(MemDb.nextLinkId))
                     st.(MemDb.links) = None).
  { apply find_link_absent. intros k Hk. specialize (H2 k Hk). lia. }
  assert (Hfind : find (MemDb.hasLinkId st.(MemDb.nextLinkId))
                    st1.(MemDb.links) = Some l).
  { unfold st1, MemDb.createLink. cbn [fst MemDb.links].
    rewrite find_app, Hfresh. cbn [find]. unfold MemDb.hasLinkId.
    cbn [Link.id]. rewrite Z.eqb_refl. reflexivity. }
  exists l, st1. eexists.
  split; [| split; [| split; [| split; [| split]]]].
  - unfold postLink.
    destruct description; [congruence |]. destruct url; [congruence |].
    cbn [falsy orb]. rewrite await_ret. reflexivity.
  - intros HN. rewrite executeQuery_linkComments, HN.
    cbn [link_findUnique MemDb.client MemDb.findLink Link.id l].
    rewrite Hfind. reflexivity.
  - unfold deleteLink. cbn [Link.id l].
    rewrite (parseIntSafe_string_of_number (MemDb.nextLinkId st))
      by (change (2 ^ 53) with 9007199254740992; lia).
    unfold await, query, catch, ret.
    cbn [link_findUnique link_delete MemDb.client MemDb.findLink].
    unfold MemDb.deleteLink. rewrite Hfind. cbv beta iota zeta.
    rewrite Hfind. reflexivity.
  - cbn [MemDb.links]. unfold st1, MemDb.createLink. cbn [fst MemDb.links].
    rewrite filter_app. cbn [filter]. unfold MemDb.hasLinkId at 2.
    cbn [Link.id]. rewrite Z.eqb_refl. cbn [negb].
    rewrite app_nil_r. apply filter_all.
    intros k Hk. specialize (H2 k Hk). unfold MemDb.hasLinkId.
    apply negb_true_iff, Z.eqb_neq. lia.
  - cbn [MemDb.comments]. unfold st1, MemDb.createLink.
    cbn [fst MemDb.comments]. apply filter_all.
    intros c Hc. apply negb_true_iff. unfold MemDb.onLink.
    destruct (Comment.linkId c) as [k |] eqn:Hk; [| reflexivity].
    destruct (H5 c k Hc Hk) as (l0 & Hl0 & Hid). specialize (H2 l0 Hl0).
    apply Z.eqb_neq. lia.
  - reflexivity.
Qed.

Lemma postLink_then_deleteLink_witness :
  exists l st1 st2,
    postLink MemDb.client "test" "http://x" MemDb.empty = (st1, Resolved l) /\
    deleteLink MemDb.client (string_of_number l.(Link.id)) st1 =
    (st2, Resolved l) /\
    st2.(MemDb.links) = [] /\
    st2.(MemDb.nextLinkId) = 2.
Proof.
  destruct (postLink_then_deleteLink Number_of_digits "test" "http://x"
              MemDb.empty)
    as (l & st1 & st2 & Hpost & _ & Hdel & Hlinks & _ & Hnext).
  - unfold store_ok, MemDb.empty.
    cbn [MemDb.links MemDb.comments map].
    split; [constructor |]. split; [intros ? [] |].
    split; [constructor |]. split; [intros ? [] | intros ? ? []].
  - split; discriminate.
  - discriminate.
  - discriminate.
  - exists l, st1, st2.
    split; [exact Hpost | split; [exact Hdel | split; [exact Hlinks | exact Hnext]]].
Defined.

(** ** Ids with the same number of digits *)

Lemma base10_value_bound (s : string) :
  allDigits s = true ->
  0 <= base10_value s < 10 ^ Z.of_nat (String.length s).
Proof.
  induction s as [| c s IH]; intros H.
  - simpl. lia.
  - cbn [allDigits] in H. apply andb_true_iff in H. destruct H as [Hc Hs].
    specialize (IH Hs). cbn [base10_value String.length].
    rewrite Nat2Z.inj_succ, Z.pow_succ_r by lia.
    unfold isDigit in Hc. apply andb_true_iff in Hc. destruct Hc as [Hlo Hhi].
    apply N.leb_le in Hlo, Hhi. unfold digitValue. nia.
Qed.

Lemma digitValue_injective (c d : ascii) :
  digitValue c = digitValue d -> c = d.
Proof.
  unfold digitValue. intros H.
  rewrite <- (ascii_N_embedding c), <- (ascii_N_embedding d).
  f_equal. lia.
Qed.

Lemma base10_value_injective (s1 : string) :
  forall s2,
    allDigits s1 = true -> allDigits s2 = true ->
    String.length s1 = String.length s2 ->
    base10_value s1 = base10_value s2 -> s1 = s2.
Proof.
  induction s1 as [| c s1 IH]; intros [| d s2] H1 H2 Hlen Hval;
    try discriminate Hlen; [reflexivity |].
  cbn [allDigits] in H1, H2.
  apply andb_true_iff in H1, H2. destruct H1 as [Hc H1], H2 as [Hd H2].
  cbn [String.length] in Hlen. injection Hlen as Hlen.
  cbn [base10_value] in Hval. rewrite <- Hlen in Hval.
  pose proof (base10_value_bound s1 H1) as B1.
  pose proof (base10_value_bound s2 H2) as B2. rewrite <- Hlen in B2.
  assert (Hdigit : digitValue c = digitValue d) by nia.
  rewrite Hdigit in Hval.
  rewrite (digitValue_injective c d Hdigit), (IH s2 H1 H2 Hlen); [reflexivity |].
  lia.
Qed.

Lemma base10_value_leading_zeros (s2 : string) :
  forall s1,
    allDigits s1 = true -> allDigits s2 = true ->
    (String.length s1 <= String.length s2)%nat ->
    base10_value s1 = base10_value s2 ->
    s2 = zeros (String.length s2 - String.length s1) ++ s1.
Proof.
  induction s2 as [| d s2 IH]; intros s1 H1 H2 Hlen Hval.
  - destruct s1; [reflexivity | cbn [String.length] in Hlen; lia].
  - destruct (Nat.eq_dec (String.length s1) (String.length (String d s2)))
      as [Heq | Hneq].
    + rewrite Heq, Nat.sub_diag. cbn [zeros append]. symmetry.
      exact (base10_value_injective s1 _ H1 H2 Heq Hval).
    + cbn [String.length] in Hlen, Hneq.
      assert (Hle : (String.length s1 <= String.length s2)%nat) by lia.
      pose proof (base10_value_bound s1 H1) as B1.
      cbn [allDigits] in H2. apply andb_true_iff in H2.
      destruct H2 as [Hd H2].
      pose proof (base10_value_bound s2 H2) as B2.
      assert (Hpow : 10 ^ Z.of_nat (String.length s1)
                     <= 10 ^ Z.of_nat (String.length s2))
        by (apply Z.pow_le_mono_r; lia).
      assert (Hd0 : 0 <= digitValue d).
      { unfold isDigit in Hd. apply andb_true_iff in Hd.
        destruct Hd as [Hlo _]. apply N.leb_le in Hlo.
        unfold digitValue. lia. }
      cbn [base10_value] in Hval.
      assert (Hzero : digitValue d = 0) by nia.
      rewrite Hzero in Hval.
      assert (d = "0"%char) as -> by (apply digitValue_injective; exact Hzero).
      cbn [String.length].
      replace (S (String.length s2) - String.length s1)%nat
        with (S (String.length s2 - String.length s1)) by lia.
      cbn [zeros append]. f_equal.
      apply (IH s1 H1 H2 Hle). lia.
Qed.

(** X20: two ids that [parseIntSafe] reads as the same integer below 2^53
    differ only in leading zeros: the longer one is the shorter one with
    zeros in front, and ids of equal length are the same string. *)
Theorem parseIntSafe_same_id_up_to_zeros (s1 s2 : string) (n : Z) :
  parseIntSafe s1 = Some (Int n) ->
  parseIntSafe s2 = Some (Int n) ->
  n < 2 ^ 53 ->
  (String.length s1 <= String.length s2)%nat ->
  s2 = zeros (String.length s2 - String.length s1) ++ s1.
Proof.
  intros H1 H2 Hsafe Hlen.
  apply parseIntSafe_Some in H1, H2.
  destruct H1 as [[_ D1] E1], H2 as [[_ D2] E2].
  apply allDigits_Forall in D1, D2.
  pose proof (base10_value_nonneg s1 D1) as P1.
  pose proof (base10_value_nonneg s2 D2) as P2.
  symmetry in E1, E2.
  destruct (round_to_double_Int _ _ P1 E1) as [[_ V1] | (_ & B1 & _)]; [| lia].
  destruct (round_to_double_Int _ _ P2 E2) as [[_ V2] | (_ & B2 & _)]; [| lia].
  apply (base10_value_leading_zeros s2 s1 D1 D2 Hlen). congruence.
Qed.

Lemma parseIntSafe_same_id_up_to_zeros_witness : "007" = zeros 2 ++ "7".
Proof.
  exact (parseIntSafe_same_id_up_to_zeros "7" "007" 7 eq_refl eq_refl eq_refl
           (le_S _ _ (le_S _ _ (le_n 1)))).
Defined.

(** ** The two field resolvers *)

(** X21: the field resolvers agree with each other.  On an in-memory store
    that meets the constraints of the schema, every comment that
    [Link.comments] returns for a link of the store has that link as its
    [Comment.link], and these comments are exactly the comments of the
    store whose [linkId] is the id of the link. *)
Theorem field_resolvers_agree (l : Link.t) (st : MemDb.t) :
  store_ok st ->
  In l st.(MemDb.links) ->
  exists cs,
    Link_comments MemDb.client l st = (st, Resolved cs) /\
    (forall c, In c cs <->
               In c st.(MemDb.comments) /\
               c.(Comment.linkId) = Some l.(Link.id)) /\
    (forall c, In c cs ->
               Comment_link MemDb.client c st = (st, Resolved (Some l))).
Proof.
  intros (H1 & _) Hl.
  assert (Hon : forall c, MemDb.onLink l.(Link.id) c = true <->
                          c.(Comment.linkId) = Some l.(Link.id)).
  { intros c. unfold MemDb.onLink. destruct (Comment.linkId c) as [k |].
    - rewrite Z.eqb_eq. split; congruence.
    - split; discriminate. }
  eexists. split; [reflexivity |]. split.
  - intros c. rewrite filter_In, Hon. reflexivity.
  - intros c Hc. apply filter_In in Hc. destruct Hc as [_ Hc].
    apply Hon in Hc. unfold Comment_link, query. rewrite Hc.
    cbn [nullish link_findUnique MemDb.client MemDb.findLink].
    rewrite (find_link_by_id _ l H1 Hl). reflexivity.
Qed.

Lemma field_resolvers_agree_witness :
  exists cs,
    Link_comments MemDb.client
      {| Link.id := 7; Link.createdAt := 20; Link.description := "seventh";
         Link.url := "http://g"; Link.postedById := None |} sample_store =
    (sample_store, Resolved cs) /\
    (forall c, In c cs ->
               Comment_link MemDb.client c sample_store =
               (sample_store,
                Resolved (Some {| Link.id := 7; Link.createdAt := 20;
                                  Link.description := "seventh";
                                  Link.url := "http://g";
                                  Link.postedById := None |}))).
Proof.
  destruct (field_resolvers_agree
              {| Link.id := 7; Link.createdAt := 20;
                 Link.description := "seventh"; Link.url := "http://g";
                 Link.postedById := None |} sample_store)
    as (cs & Hrun & _ & Hlink).
  - exact sample_store_ok.
  - right. left. reflexivity.
  - exists cs. split; [exact Hrun | exact Hlink].
Defined.
